(** * Comparable-sales valuation engine

    A shallow embedding of [src/services/ComparableService.ts] and of the
    valuation steps of [src/services/AnalysisService.ts]
    ([AnalysisService.analyzeProperty], repeated line for line in the [POST]
    handler of [src/app/api/analysis/route.ts]).

    Numbers.  The TypeScript fields of type [number] are taken to hold finite
    values and are modelled as exact rationals ([Q]): rounding of IEEE doubles
    is not modelled.  Two places where a finite input can still produce a
    non-finite JavaScript value are modelled explicitly: a division whose
    divisor may be zero ([JsNumber.div]) and an array read that may be out of
    range ([JsArray.get]).  Equalities between computed amounts are stated
    with [==] ([Qeq]).

    Time.  A [Date] is its time value, in milliseconds since the epoch ([Z]);
    [new Date()] is a reading [now] of the clock, passed explicitly.  The
    calendar methods follow ECMAScript with the host time zone taken as UTC.

    Objects.  [processComparables] writes the adjustments and the adjusted
    price into the comparable objects it was given.
    [ComparableService.processComparablesInPlace] keeps the objects in a
    store and the arrays as lists of references;
    [ComparableService.processComparables] is the same computation read by
    value, and the two are related in [PipelineFacts]. *)

From Stdlib Require Import String QArith Qabs Qround ZArith List Lia Lqa Bool.
From Stdlib Require Import Ascii NArith Qminmax.
From Stdlib Require Import Sorting.Sorted Sorting.Permutation.
Import ListNotations.

Open Scope Q_scope.

(** ** JavaScript numbers: the results of a division *)

Module JsNumber.

(** The value of [a / b] for finite [a] and [b]. *)
Inductive number : Type :=
| Fin (q : Q)
| PosInf
| NegInf
| NaN.

Definition Qltb (a b : Q) : bool := negb (Qle_bool b a).

(** [a / b]: a zero divisor gives [NaN] for [0 / 0] and an infinity of the
    sign of [a] otherwise. *)
Definition div (a b : Q) : number :=
  if Qeq_bool b 0 then
    if Qeq_bool a 0 then NaN
    else if Qltb 0 a then PosInf else NegInf
  else Fin (a / b).

(** [x < y]; every comparison with [NaN] is false. *)
Definition ltb (x y : number) : bool :=
  match x, y with
  | NaN, _ | _, NaN => false
  | Fin a, Fin b => Qltb a b
  | NegInf, (Fin _ | PosInf) => true
  | Fin _, PosInf => true
  | _, _ => false
  end.

(** [x > y]. *)
Definition gtb (x y : number) : bool := ltb y x.

End JsNumber.

(** ** JavaScript arrays: [slice] and indexed reads *)

Module JsArray.

Section Ops.
Context {A : Type}.

(** A relative index of [slice], clamped to [0 .. len]. *)
Definition clamp (len i : Z) : Z :=
  if (i <? 0)%Z then Z.max (len + i) 0 else Z.min i len.

(** [arr.slice(start, end)]. *)
Definition slice (arr : list A) (start end_ : Z) : list A :=
  let len := Z.of_nat (length arr) in
  let k := clamp len start in
  let final := clamp len end_ in
  firstn (Z.to_nat (Z.max (final - k) 0)) (skipn (Z.to_nat k) arr).

(** [arr[i]]; [None] stands for [undefined]. *)
Definition get (arr : list A) (i : Z) : option A :=
  if (i <? 0)%Z then None else nth_error arr (Z.to_nat i).
End Ops.

(** [arr.sort((a, b) => a - b)] on numbers: a stable insertion sort. *)
Fixpoint insert (x : Q) (l : list Q) : list Q :=
  match l with
  | [] => [x]
  | y :: l' => if Qle_bool x y then x :: l else y :: insert x l'
  end.

Definition sort (l : list Q) : list Q := fold_right insert [] l.

End JsArray.

(** ** JavaScript dates (UTC) *)

Module JsDate.
Open Scope Z_scope.

Definition msPerDay : Z := 86400000.

Definition Day (t : Z) : Z := t / msPerDay.
Definition TimeWithinDay (t : Z) : Z := t mod msPerDay.

(** Day number (days since 1970-01-01) of the civil date [y]-[m]-[d],
    [m] in 1..12; days past the end of the month run into the next. *)
Definition days_from_civil (y m d : Z) : Z :=
  let y := if m <=? 2 then y - 1 else y in
  let era := y / 400 in
  let yoe := y - era * 400 in
  let mp := if 2 <? m then m - 3 else m + 9 in
  let doy := (153 * mp + 2) / 5 + d - 1 in
  let doe := yoe * 365 + yoe / 4 - yoe / 100 + doy in
  era * 146097 + doe - 719468.

(** Civil date (year, month 1..12, day 1..31) of a day number. *)
Definition civil_from_days (z : Z) : Z * Z * Z :=
  let z := z + 719468 in
  let era := z / 146097 in
  let doe := z - era * 146097 in
  let yoe := (doe - doe / 1460 + doe / 36524 - doe / 146096) / 365 in
  let doy := doe - (365 * yoe + yoe / 4 - yoe / 100) in
  let mp := (5 * doy + 2) / 153 in
  let d := doy - (153 * mp + 2) / 5 + 1 in
  let m := if mp <? 10 then mp + 3 else mp - 9 in
  ((if m <=? 2 then yoe + era * 400 + 1 else yoe + era * 400), m, d).

Definition YearFromTime (t : Z) : Z := fst (fst (civil_from_days (Day t))).
(** Months are numbered from 0 (January) to 11. *)
Definition MonthFromTime (t : Z) : Z := snd (fst (civil_from_days (Day t))) - 1.
Definition DateFromTime (t : Z) : Z := snd (civil_from_days (Day t)).

(** [MakeDay(year, month, date)]: [month] may lie outside 0..11 and [date]
    outside the month; both carry over. *)
Definition MakeDay (year month date : Z) : Z :=
  let ym := year + month / 12 in
  let mn := month mod 12 in
  days_from_civil ym (mn + 1) 1 + date - 1.

Definition MakeDate (day time : Z) : Z := day * msPerDay + time.

(** [d.getMonth()]. *)
Definition getMonth (t : Z) : Z := MonthFromTime t.

(** The time value of [d] after [d.setMonth(month)]. *)
Definition setMonth (t month : Z) : Z :=
  MakeDate (MakeDay (YearFromTime t) month (DateFromTime t)) (TimeWithinDay t).

(** [f] holds of the [n] integers from [lo] on; used to check the calendar
    arithmetic over a whole 400-year cycle. *)
Fixpoint allFrom (lo : Z) (n : nat) (f : Z -> bool) : bool :=
  match n with
  | O => true
  | S n' => f lo && allFrom (lo + 1) n' f
  end.

Definition civil_eqb (a b : Z * Z * Z) : bool :=
  let '(y1, m1, d1) := a in
  let '(y2, m2, d2) := b in
  (y1 =? y2) && (m1 =? m2) && (d1 =? d2).

End JsDate.

(** ** Data model ([src/external/RentCastTypes.ts]) *)

(** The numeric features shared by [Property.characteristics] and
    [Comparable.characteristics]. *)
Record Characteristics : Type := mkCharacteristics {
  sqft : Q;
  bedrooms : Q;
  bathrooms : Q;
  lotSize : Q;
  yearBuilt : Q
}.

(** [Property]; of its optional fields only [currentAssessedValue] is read by
    the engine.  [propertyType] belongs to [characteristics] in the source. *)
Record Property : Type := mkProperty {
  propertyId : string;
  addressLine1 : string;
  city : string;
  state : string;
  zipCode : string;
  propertyCharacteristics : Characteristics;
  propertyType : string;
  currentAssessedValue : option Q
}.

(** [Record<string, number>]: the own properties in insertion order. *)
Definition Adjustments : Type := list (string * Q).

Record Comparable : Type := mkComparable {
  id : string;
  address : string;
  salePrice : Q;
  saleDate : Z;
  distanceMiles : Q;
  characteristics : Characteristics;
  adjustments : Adjustments;
  adjustedPrice : Q;
  source : string;
  sourceId : string
}.

Inductive ConfidenceLevel : Type := high | medium | low.

Inductive Verdict : Type := over_assessed | fair | under_assessed.

(** Assignment [obj[key] = v]: an existing key keeps its position. *)
Fixpoint obj_set (obj : Adjustments) (key : string) (v : Q) : Adjustments :=
  match obj with
  | [] => [(key, v)]
  | (k, w) :: rest =>
      if String.eqb k key then (k, v) :: rest else (k, w) :: obj_set rest key v
  end.

(** [obj[key]]. *)
Fixpoint obj_get (obj : Adjustments) (key : string) : option Q :=
  match obj with
  | [] => None
  | (k, w) :: rest => if String.eqb k key then Some w else obj_get rest key
  end.

(** [Object.values(obj)]. *)
Definition obj_values (obj : Adjustments) : list Q := map snd obj.

(** [comp.adjustments = a]. *)
Definition set_adjustments (comp : Comparable) (a : Adjustments) : Comparable :=
  mkComparable (id comp) (address comp) (salePrice comp) (saleDate comp)
    (distanceMiles comp) (characteristics comp) a (adjustedPrice comp)
    (source comp) (sourceId comp).

(** [comp.adjustedPrice = p]. *)
Definition set_adjustedPrice (comp : Comparable) (p : Q) : Comparable :=
  mkComparable (id comp) (address comp) (salePrice comp) (saleDate comp)
    (distanceMiles comp) (characteristics comp) (adjustments comp) p
    (source comp) (sourceId comp).

(** ** [ComparableService] *)

Module ComparableService.
Import JsNumber JsArray.

(** [calculateAdjustments(subjectProperty, comparable)]. *)
Definition calculateAdjustments (subjectProperty : Property)
    (comparable : Comparable) : Adjustments :=
  let subject := propertyCharacteristics subjectProperty in
  let comp := characteristics comparable in
  let adjustments : Adjustments := [] in
  let sizeDiff := sqft comp - sqft subject in
  let sizeAdjustment := sizeDiff * 150 in
  let adjustments := obj_set adjustments "size"%string (- sizeAdjustment) in
  let bedroomDiff := bedrooms comp - bedrooms subject in
  let bedroomAdjustment := bedroomDiff * 25000 in
  let adjustments := obj_set adjustments "bedroom"%string (- bedroomAdjustment) in
  let bathroomDiff := bathrooms comp - bathrooms subject in
  let bathroomAdjustment := bathroomDiff * 15000 in
  let adjustments := obj_set adjustments "bathroom"%string (- bathroomAdjustment) in
  let lotDiff := lotSize comp - lotSize subject in
  let lotAdjustment := lotDiff * 50000 in
  let adjustments := obj_set adjustments "lotSize"%string (- lotAdjustment) in
  let ageDiff := yearBuilt comp - yearBuilt subject in
  let ageAdjustment := ageDiff * 1000 in
  let adjustments := obj_set adjustments "age"%string (- ageAdjustment) in
  adjustments.

(** [applyAdjustments(comparable)]: the comparable with its [adjustedPrice]
    overwritten. *)
Definition applyAdjustments (comparable : Comparable) : Comparable :=
  let totalAdjustment :=
    fold_left (fun sum adj => sum + adj) (obj_values (adjustments comparable)) 0 in
  set_adjustedPrice comparable (salePrice comparable + totalAdjustment).

(** The cut-off date of the filter: [new Date()] moved back six months. *)
Definition sixMonthsAgo (now : Z) : Z :=
  JsDate.setMonth now (JsDate.getMonth now - 6).

(** The callback of [filterComparables].  The source reads the clock inside
    the callback, once for each candidate that passes the first five checks;
    the readings of one call are taken to be a single instant, [now]. *)
Definition keepComparable (now : Z) (subjectProperty : Property)
    (comp : Comparable) : bool :=
  let subject := propertyCharacteristics subjectProperty in
  let sizeRatio := div (sqft (characteristics comp)) (sqft subject) in
  if ltb sizeRatio (Fin 0.8) || gtb sizeRatio (Fin 1.2) then false else
  let bedroomDiff := Qabs (bedrooms (characteristics comp) - bedrooms subject) in
  if Qltb 1 bedroomDiff then false else
  let bathroomDiff := Qabs (bathrooms (characteristics comp) - bathrooms subject) in
  if Qltb 1 bathroomDiff then false else
  let lotRatio := div (lotSize (characteristics comp)) (lotSize subject) in
  if ltb lotRatio (Fin 0.75) || gtb lotRatio (Fin 1.25) then false else
  if Qltb 1.0 (distanceMiles comp) then false else
  if (saleDate comp <? sixMonthsAgo now)%Z then false else
  true.

(** [filterComparables(comparables, subjectProperty)], the clock reading
    [now]. *)
Definition filterComparables (now : Z) (comparables : list Comparable)
    (subjectProperty : Property) : list Comparable :=
  filter (keepComparable now subjectProperty) comparables.

(** [Math.floor(n * 0.2)] for an array length [n]. *)
Definition removeCountOf (n : nat) : Z :=
  Qfloor (inject_Z (Z.of_nat n) * 0.2).

(** The median step of [calculateMarketValue]; [None] stands for
    [undefined] or [NaN], the outcome of a read outside the array. *)
Definition medianOfTrimmed (trimmedPrices : list Q) : option Q :=
  let mid := Qfloor (inject_Z (Z.of_nat (length trimmedPrices)) / 2) in
  if (Z.of_nat (length trimmedPrices) mod 2 =? 0)%Z then
    match get trimmedPrices (mid - 1), get trimmedPrices mid with
    | Some a, Some b => Some ((a + b) / 2)
    | _, _ => None
    end
  else get trimmedPrices mid.

(** [calculateMarketValue(comparables)]. *)
Definition calculateMarketValue (comparables : list Comparable) : option Q :=
  if (length comparables =? 0)%nat then Some 0 else
  let adjustedPrices := sort (map adjustedPrice comparables) in
  let removeCount := removeCountOf (length adjustedPrices) in
  let trimmedPrices :=
    slice adjustedPrices removeCount
      (Z.of_nat (length adjustedPrices) - removeCount) in
  medianOfTrimmed trimmedPrices.

(** The body of [calculateConfidence] on [count = comparables.length]. *)
Definition confidenceOfCount (count : nat) : ConfidenceLevel :=
  if (5 <=? count)%nat then high
  else if (3 <=? count)%nat then medium
  else low.

(** [calculateConfidence(comparables)]. *)
Definition calculateConfidence (comparables : list Comparable) : ConfidenceLevel :=
  confidenceOfCount (length comparables).

(** What [processComparables] returns; [A] is [Comparable] when the
    comparables are read by value and [ref] when they are held in a store. *)
Record ProcessResult (A : Type) : Type := mkProcessResult {
  comparables : list A;
  marketValue : option Q;
  confidence : ConfidenceLevel
}.

Arguments mkProcessResult {A} _ _ _.
Arguments comparables {A} _.
Arguments marketValue {A} _.
Arguments confidence {A} _.

(** The callback of the [map] in [processComparables], by value: the
    comparable with its [adjustments] and [adjustedPrice] overwritten. *)
Definition adjustComparable (subjectProperty : Property) (comp : Comparable)
    : Comparable :=
  applyAdjustments
    (set_adjustments comp (calculateAdjustments subjectProperty comp)).

(** The comparables are objects: an array holds references to them, and the
    [map] callback writes to the object it is given and returns that same
    object.  A store maps each reference to the current state of its
    object. *)
Definition ref : Type := nat.
Definition store : Type := ref -> Comparable.

Definition write (h : store) (r : ref) (v : Comparable) : store :=
  fun r' => if (r' =? r)%nat then v else h r'.

(** The [map] of [processComparables] over an array of references: each
    object in turn is overwritten with its adjusted state. *)
Definition adjustInPlace (subjectProperty : Property) (refs : list ref)
    (h : store) : store :=
  fold_left (fun h r => write h r (adjustComparable subjectProperty (h r))) refs h.

(** [processComparables(rawComparables, subjectProperty)] on an array of
    references, with the store it leaves behind; the returned [comparables]
    are the references that survive the filter. *)
Definition processComparablesInPlace (now : Z) (rawComparables : list ref)
    (subjectProperty : Property) (h : store) : ProcessResult ref * store :=
  let filteredComparables :=
    filter (fun r => keepComparable now subjectProperty (h r)) rawComparables in
  let h' := adjustInPlace subjectProperty filteredComparables h in
  let marketValue := calculateMarketValue (map h' filteredComparables) in
  let confidence := calculateConfidence (map h' filteredComparables) in
  (mkProcessResult filteredComparables marketValue confidence, h').

(** The returned record as the caller reads it through the store. *)
Definition readResult (h : store) (r : ProcessResult ref) : ProcessResult Comparable :=
  mkProcessResult (map h (comparables r)) (marketValue r) (confidence r).

(** [processComparables(rawComparables, subjectProperty)] by value: what the
    caller reads off the returned objects ([processComparablesInPlace_by_value]
    below relates the two). *)
Definition processComparables (now : Z) (rawComparables : list Comparable)
    (subjectProperty : Property) : ProcessResult Comparable :=
  let filteredComparables := filterComparables now rawComparables subjectProperty in
  let filteredComparables := map (adjustComparable subjectProperty) filteredComparables in
  let marketValue := calculateMarketValue filteredComparables in
  let confidence := calculateConfidence filteredComparables in
  mkProcessResult filteredComparables marketValue confidence.

End ComparableService.

(** ** [AnalysisService.analyzeProperty], steps 4 to 8 *)

Module AnalysisService.
Import JsNumber.

(** What [getPropertyValuation] resolves to when it finds a valuation. *)
Record Valuation : Type := mkValuation {
  value : Q;
  valuationConfidence : ConfidenceLevel
}.

(** [avmResult?.value || null]; [avmResult] is [None] when the provider
    returned [null] or the lookup threw. *)
Definition avmValueOf (avmResult : option Valuation) : option Q :=
  match avmResult with
  | Some r => if Qeq_bool (value r) 0 then None else Some (value r)
  | None => None
  end.

(** Step 5: [finalMarketValue]; the [else if] branch only logs. *)
Definition finalMarketValueOf (marketValue : Q) (avmValue : option Q)
    (length : nat) : Q :=
  match avmValue with
  | Some avm =>
      if negb (Qeq_bool avm 0) && (length <? 3)%nat
      then (marketValue * 0.7) + (avm * 0.3)
      else marketValue
  | None => marketValue
  end.

(** Step 6: [property.currentAssessedValue || 0]. *)
Definition assessedValueOf (property : Property) : Q :=
  match currentAssessedValue property with
  | Some v => if Qeq_bool v 0 then 0 else v
  | None => 0
  end.

Definition differenceOf (assessedValue finalMarketValue : Q) : Q :=
  assessedValue - finalMarketValue.

Definition percentageDifferenceOf (assessedValue difference : Q) : Q :=
  if Qltb 0 assessedValue then (difference / assessedValue) * 100 else 0.

(** Step 7. *)
Definition verdictOf (percentageDifference : Q) : Verdict :=
  if Qle_bool (Qabs percentageDifference) 5 then fair
  else if Qltb 5 percentageDifference then over_assessed
  else under_assessed.

(** Step 8. *)
Definition taxRate : Q := 0.055.

Definition annualSavingsOf (verdict : Verdict) (difference : Q) : Q :=
  match verdict with
  | over_assessed => Qabs difference * taxRate
  | _ => 0
  end.

Definition monthlySavingsOf (annualSavings : Q) : Q := annualSavings / 12.

Record Confidence : Type := mkConfidence {
  level : ConfidenceLevel;
  sampleSize : nat;
  lastUpdated : Z
}.

Record PropertyAnalysis : Type := mkPropertyAnalysis {
  property : Property;
  comparables : list Comparable;
  marketValue : Q;
  assessedValue : Q;
  difference : Q;
  percentageDifference : Q;
  analysisTaxRate : Q;
  annualSavings : Q;
  monthlySavings : Q;
  confidence : Confidence;
  verdict : Verdict
}.

(** Steps 5 to 8 on the outcome of [processComparables]. *)
Definition assess (property : Property) (comparables : list Comparable)
    (marketValue : Q) (confidence : ConfidenceLevel) (avmValue : option Q)
    (later : Z) : PropertyAnalysis :=
  let finalMarketValue :=
    finalMarketValueOf marketValue avmValue (List.length comparables) in
  let assessedValue := assessedValueOf property in
  let difference := differenceOf assessedValue finalMarketValue in
  let percentageDifference := percentageDifferenceOf assessedValue difference in
  let verdict := verdictOf percentageDifference in
  let annualSavings := annualSavingsOf verdict difference in
  let monthlySavings := monthlySavingsOf annualSavings in
  mkPropertyAnalysis property comparables finalMarketValue assessedValue
    difference percentageDifference taxRate annualSavings monthlySavings
    (mkConfidence confidence (List.length comparables) later) verdict.

(** [analyzeProperty] once the property record, the raw comparables and the
    answer of the valuation provider have been fetched.  [now] is the clock
    reading of the filter and [later] that of [lastUpdated].  The result is
    [None] when the market value is not a number. *)
Definition analyzeProperty (now : Z) (property : Property)
    (rawComparables : list Comparable) (avmResult : option Valuation)
    (later : Z) : option PropertyAnalysis :=
  let r := ComparableService.processComparables now rawComparables property in
  let avmValue := avmValueOf avmResult in
  match ComparableService.marketValue r with
  | Some marketValue =>
      Some (assess property (ComparableService.comparables r) marketValue
              (ComparableService.confidence r) avmValue later)
  | None => None
  end.

End AnalysisService.

(** ** Notions of the specification *)

Module Spec.
Import ComparableService.

(** The order low < medium < high, as a rank. *)
Definition rank (c : ConfidenceLevel) : nat :=
  match c with low => 0 | medium => 1 | high => 2 end.

(** The median as the specification words it: the mean of the two middle
    values of an even-sized list, the middle value of an odd-sized one. *)
Definition median (l : list Q) : Q :=
  let m := List.length l in
  if Nat.even m
  then (nth (m / 2 - 1) l 0 + nth (m / 2) l 0) / 2
  else nth (m / 2) l 0.

(** The instant at [t] milliseconds into day [d] of month [m] (1..12) of
    year [y]. *)
Definition instant (y m d t : Z) : Z :=
  JsDate.MakeDate (JsDate.MakeDay y (m - 1) d) t.

(** The Gregorian calendar: leap years and the number of days of month [m]
    (1..12) of year [y]. *)
Definition isLeapYear (y : Z) : bool :=
  ((y mod 4 =? 0) && negb (y mod 100 =? 0) || (y mod 400 =? 0))%Z.

Definition daysInMonth (y m : Z) : Z :=
  (if m =? 2 then (if isLeapYear y then 29 else 28)
   else if (m =? 4) || (m =? 6) || (m =? 9) || (m =? 11) then 30
   else 31)%Z.

(** The year and month six calendar months before month [m] of year [y]. *)
Definition sixMonthsBack (y m : Z) : Z * Z :=
  (if m <=? 6 then (y - 1, m + 6) else (y, m - 6))%Z.

(** [today - 6 calendar months], as the specification words the cut-off:
    the same day of the month at the same time of day, six calendar months
    before [now]; when that month has no such day, its last day. *)
Definition sixCalendarMonthsBefore (now : Z) : Z :=
  let '(y, m, d) := JsDate.civil_from_days (JsDate.Day now) in
  let '(y', m') := sixMonthsBack y m in
  instant y' m' (Z.min d (daysInMonth y' m')) (JsDate.TimeWithinDay now).

(** The day of the month of [now] exists in the month six months back. *)
Definition dayExistsSixMonthsBack (now : Z) : Prop :=
  let '(y, m, d) := JsDate.civil_from_days (JsDate.Day now) in
  let '(y', m') := sixMonthsBack y m in
  (d <= daysInMonth y' m')%Z.

Section Conditions.
Variable now : Z.
Variable subjectProperty : Property.
Variable candidate : Comparable.

Let subject := propertyCharacteristics subjectProperty.
Let comp := characteristics candidate.

(** The six conditions of the specification. *)
Definition sizeWithin : Prop :=
  0.8 <= sqft comp / sqft subject /\ sqft comp / sqft subject <= 1.2.
Definition bedroomsWithin : Prop :=
  Qabs (bedrooms comp - bedrooms subject) <= 1.
Definition bathroomsWithin : Prop :=
  Qabs (bathrooms comp - bathrooms subject) <= 1.
Definition lotWithin : Prop :=
  0.75 <= lotSize comp / lotSize subject /\ lotSize comp / lotSize subject <= 1.25.
Definition nearby : Prop := distanceMiles candidate <= 1.0.
Definition soldRecently : Prop :=
  (sixCalendarMonthsBefore now <= saleDate candidate)%Z.

Definition allSix : Prop :=
  sizeWithin /\ bedroomsWithin /\ bathroomsWithin /\ lotWithin /\
  nearby /\ soldRecently.
End Conditions.

End Spec.

(** ** Scenario data *)

Module Scenario.

(** Scenario data: the subject of the specification's scenario A and one
    sale of 1 March 2024, half a mile away. *)
Definition subjectA : Property :=
  mkProperty "p1" "1 Main St" "Denver" "CO" "80202"
    (mkCharacteristics 2000 3 2 0.25 2010) "Single Family" (Some 500000).

Definition saleOfMarch : Comparable :=
  mkComparable "c1" "2 Main St" 450000 1709251200000 0.5
    (mkCharacteristics 2100 3 2 0.25 2012) [] 450000 "rentcast" "c1".

(** 1 August 2024 and 1 October 2024, at midnight. *)
Definition firstOfAugust : Z := 1722470400000.
Definition firstOfOctober : Z := 1727740800000.

(** 31 August 2024, at noon. *)
Definition lastOfAugust : Z := 1725105600000.

End Scenario.

(** ** Further notions used to state properties *)

Module Notions.

(** [v] has the sign opposite to that of [diff]. *)
Definition opposes (diff v : Q) : Prop :=
  (0 < diff -> v < 0) /\ (diff < 0 -> 0 < v) /\ (diff == 0 -> v == 0).

(** Two comparables describe the same listing: they agree on every field
    that [processComparables] does not write. *)
Definition sameListing (a b : Comparable) : Prop :=
  id a = id b /\ address a = address b /\ salePrice a = salePrice b /\
  saleDate a = saleDate b /\ distanceMiles a = distanceMiles b /\
  characteristics a = characteristics b /\
  source a = source b /\ sourceId a = sourceId b.

(** Equality of optional amounts, up to [==]. *)
Definition optQeq (a b : option Q) : Prop :=
  match a, b with
  | Some x, Some y => x == y
  | None, None => True
  | _, _ => False
  end.

End Notions.

(** ** [AnalysisService.getAnalysisByPropertyId] *)

Module AnalysisServiceById.
Import AnalysisService.

(** [getAnalysisByPropertyId] once the property record and the raw
    comparables have been fetched: the analysis for returning users, which
    makes no valuation lookup.  [None] when the market value is not a
    number. *)
Definition getAnalysisByPropertyId (now : Z) (property : Property)
    (rawComparables : list Comparable) (later : Z) : option PropertyAnalysis :=
  let r := ComparableService.processComparables now rawComparables property in
  match ComparableService.marketValue r with
  | Some marketValue =>
      let comparables := ComparableService.comparables r in
      let assessedValue := assessedValueOf property in
      let difference := differenceOf assessedValue marketValue in
      let percentageDifference := percentageDifferenceOf assessedValue difference in
      let verdict := verdictOf percentageDifference in
      let annualSavings := annualSavingsOf verdict difference in
      let monthlySavings := monthlySavingsOf annualSavings in
      Some (mkPropertyAnalysis property comparables marketValue assessedValue
              difference percentageDifference taxRate annualSavings monthlySavings
              (mkConfidence (ComparableService.confidence r)
                 (List.length comparables) later)
              verdict)
  | None => None
  end.

End AnalysisServiceById.

(** ** Further scenario data *)

Module Scenario2.
Import Scenario.

(** A second sale, of 1 April 2024. *)
Definition saleOfApril : Comparable :=
  mkComparable "c2" "3 Main St" 430000 1711929600000 0.7
    (mkCharacteristics 1900 3 2 0.25 2008) [] 430000 "rentcast" "c2".

(** [saleOfMarch] as a first run of [processComparables] might have left
    it. *)
Definition saleOfMarchStale : Comparable :=
  mkComparable "c1" "2 Main St" 450000 1709251200000 0.5
    (mkCharacteristics 2100 3 2 0.25 2012) [("size"%string, 1)] 1 "rentcast" "c1".

(** A subject whose record has no living area and no assessed value, and a
    listing without living area. *)
Definition subjectNoArea : Property :=
  mkProperty "p2" "5 Main St" "Denver" "CO" "80202"
    (mkCharacteristics 0 3 2 0.25 2010) "Land" None.

Definition saleNoArea : Comparable :=
  mkComparable "c3" "6 Main St" 200000 1711929600000 0.2
    (mkCharacteristics 0 3 2 0.25 2010) [] 200000 "rentcast" "c3".

End Scenario2.

(** ** [DenverAssessorService]: property ids and schedule numbers *)

Module DenverAssessorService.
Local Open Scope N_scope.

(** A JavaScript string is its sequence of UTF-16 code units. *)
Definition jsString : Type := list N.

Definition dash : N := 45.

(** [\d]. *)
Definition isDigit (c : N) : bool := (48 <=? c) && (c <=? 57).

(** [\s]: the white space and line terminator code units. *)
Definition isWhiteSpace (c : N) : bool :=
  ((9 <=? c) && (c <=? 13)) || (c =? 32) || (c =? 160) || (c =? 5760) ||
  ((8192 <=? c) && (c <=? 8202)) || (c =? 8232) || (c =? 8233) ||
  (c =? 8239) || (c =? 8287) || (c =? 12288) || (c =? 65279).

(** [/^\d{13}$/.test(s)]. *)
Definition isThirteenDigits (s : jsString) : bool :=
  (List.length s =? 13)%nat && forallb isDigit s.

(** [s.substring(start, end)]: both indices are clamped to the length and
    swapped when out of order. *)
Definition substring (s : jsString) (start end_ : nat) : jsString :=
  let a := Nat.min start (List.length s) in
  let b := Nat.min end_ (List.length s) in
  firstn (Nat.max a b - Nat.min a b) (skipn (Nat.min a b) s).

(** [propertyIdToScheduleNumber(propertyId)]; [None] when it throws
    [Invalid property ID format]. *)
Definition propertyIdToScheduleNumber (propertyId : jsString) : option jsString :=
  if negb (isThirteenDigits propertyId) then None
  else Some (substring propertyId 0 5 ++ [dash] ++
             substring propertyId 5 7 ++ [dash] ++
             substring propertyId 7 10 ++ [dash] ++
             substring propertyId 10 13).

(** [scheduleNumber.replace(/[-\s]/g, '')]. *)
Definition removeDashesAndSpaces (s : jsString) : jsString :=
  filter (fun c => negb ((c =? dash) || isWhiteSpace c)) s.

(** [scheduleNumberToPropertyId(scheduleNumber)]; [None] when it throws
    [Invalid schedule number format]. *)
Definition scheduleNumberToPropertyId (scheduleNumber : jsString) : option jsString :=
  let cleaned := removeDashesAndSpaces scheduleNumber in
  if negb (isThirteenDigits cleaned) then None
  else Some cleaned.

End DenverAssessorService.

(** The id and the schedule number of the example in the source:
    0229227041000 and 02292-27-041-000. *)
Module DenverExample.

Definition propertyId : DenverAssessorService.jsString :=
  [48; 50; 50; 57; 50; 50; 55; 48; 52; 49; 48; 48; 48]%N.

Definition scheduleNumber : DenverAssessorService.jsString :=
  [48; 50; 50; 57; 50; 45; 50; 55; 45; 48; 52; 49; 45; 48; 48; 48]%N.

End DenverExample.

(** ** Thrown values and fallible calls *)

Module JsError.

(** What a [catch] clause can receive: an [Error] object, an Axios error
    (also an [Error] object) with the status of the response when there was
    one, or some other value. *)
Inductive thrown : Type :=
| Error (message : string)
| AxiosError (status : option Z) (message : string)
| NotAnError.

(** [error instanceof Error]. *)
Definition instanceofError (error : thrown) : bool :=
  match error with
  | NotAnError => false
  | _ => true
  end.

(** [axios.isAxiosError(error)]. *)
Definition isAxiosError (error : thrown) : bool :=
  match error with
  | AxiosError _ _ => true
  | _ => false
  end.

(** [error.message] of an [Error] object. *)
Definition messageOf (error : thrown) : string :=
  match error with
  | Error m => m
  | AxiosError _ m => m
  | NotAnError => ""
  end.

(** [error.response?.status === code]. *)
Definition statusIs (error : thrown) (code : Z) : bool :=
  match error with
  | AxiosError (Some s) _ => (s =? code)%Z
  | _ => false
  end.

(** The outcome of an awaited call. *)
Inductive Result (A : Type) : Type :=
| Return (a : A)
| Throw (error : thrown).

Arguments Return {A} _.
Arguments Throw {A} _.

(** [s.includes(needle)]. *)
Fixpoint includes (s needle : string) : bool :=
  prefix needle s ||
  match s with
  | EmptyString => false
  | String _ s' => includes s' needle
  end.

End JsError.

(** ** [RentCastService.getPropertyByAddress] and [getComparableSales] *)

Module RentCastService.
Import JsError.

(** An entry of [taxAssessments]. *)
Record TaxAssessment : Type := mkTaxAssessment {
  taYear : Q;
  taValue : Q;
  taLand : Q;
  taImprovements : Q
}.

(** [RentCastPropertyRecord], the fields that [mapToProperty] copies into
    the fields of [Property] above. *)
Record RentCastPropertyRecord : Type := mkRentCastPropertyRecord {
  rcId : string;
  rcAddressLine1 : string;
  rcCity : string;
  rcState : string;
  rcZipCode : string;
  rcPropertyType : string;
  rcBedrooms : Q;
  rcBathrooms : Q;
  rcSquareFootage : Q;
  rcLotSize : Q;
  rcYearBuilt : Q;
  rcTaxAssessments : option (list (string * TaxAssessment))
}.

(** [response.data] of the [/properties] request: an array of records, or
    an object, of which the code reads [status] and [message]. *)
Inductive PropertiesData : Type :=
| DataArray (records : list RentCastPropertyRecord)
| DataObject (status : option string) (message : option string).

(** The [catch] block of [getPropertyByAddress]. *)
Definition getPropertyByAddress_catch (error : thrown) : thrown :=
  if isAxiosError error then
    if statusIs error 404 then Error "Property not found in RentCast database"
    else if statusIs error 429 then Error "RentCast API rate limit exceeded"
    else error
  else error.

(** [getPropertyByAddress(address)] for a string [address]; [properties]
    is the outcome of the request for an address. *)
Definition getPropertyByAddress (properties : string -> Result PropertiesData)
    (address : string) : Result RentCastPropertyRecord :=
  match properties address with
  | Return (DataArray []) =>
      Throw (getPropertyByAddress_catch
               (Error "Property not found in RentCast database"))
  | Return (DataArray (first :: _)) => Return first
  | Return (DataObject status message) =>
      Throw (getPropertyByAddress_catch
               (match status with
                | Some "error"%string =>
                    Error (match message with
                           | Some m => if String.eqb m "" then "RentCast API error" else m
                           | None => "RentCast API error"
                           end)
                | _ => Error "Unexpected response format from RentCast"
                end))
  | Throw error => Throw (getPropertyByAddress_catch error)
  end.

(** The [catch] block of [getComparableSales]: what the method returns or
    throws when the [/listings/sale] request, or the filtering after it,
    throws [error]. *)
Definition getComparableSales_catch {A : Type} (error : thrown) : Result (list A) :=
  if isAxiosError error then
    if statusIs error 400 || statusIs error 404 then Return []
    else if statusIs error 429 then Throw (Error "RentCast API rate limit exceeded")
    else Return []
  else Return [].

End RentCastService.

(** ** [RentCastMapper.mapToProperty] *)

Module RentCastMapper.
Import RentCastService.

(** [Object.keys(obj)]; the order does not matter here, the keys are sorted
    next. *)
Definition keys {A : Type} (obj : list (string * A)) : list string := map fst obj.

(** [obj[key]]. *)
Fixpoint lookup {A : Type} (obj : list (string * A)) (key : string) : option A :=
  match obj with
  | [] => None
  | (k, v) :: rest => if String.eqb k key then Some v else lookup rest key
  end.

(** [keys.sort()]: ascending in the order of the strings, here the order of
    their bytes. *)
Fixpoint insertKey (k : string) (l : list string) : list string :=
  match l with
  | [] => [k]
  | h :: t => if String.leb k h then k :: l else h :: insertKey k t
  end.

Definition sortKeys (l : list string) : list string := fold_right insertKey [] l.

(** The first lines of [mapToProperty]: the entry of [taxAssessments] under
    the last key in sorted order; an empty key counts as no key. *)
Definition latestAssessment (record : RentCastPropertyRecord) : option TaxAssessment :=
  let taxAssessments :=
    match rcTaxAssessments record with
    | Some t => t
    | None => []
    end in
  let assessmentYears := rev (sortKeys (keys taxAssessments)) in
  let latestAssessmentYear := hd_error assessmentYears in
  match latestAssessmentYear with
  | Some year => if String.eqb year "" then None else lookup taxAssessments year
  | None => None
  end.

(** [mapToProperty(record)], as far as the fields of [Property] go;
    [currentAssessedValue] is [latestAssessment?.value || undefined]. *)
Definition mapToProperty (record : RentCastPropertyRecord) : Property :=
  mkProperty (rcId record) (rcAddressLine1 record) (rcCity record)
    (rcState record) (rcZipCode record)
    (mkCharacteristics (rcSquareFootage record) (rcBedrooms record)
       (rcBathrooms record) (rcLotSize record) (rcYearBuilt record))
    (rcPropertyType record)
    (match latestAssessment record with
     | Some a => if Qeq_bool (taValue a) 0 then None else Some (taValue a)
     | None => None
     end).

End RentCastMapper.

(** ** [PropertyService.lookupProperty] *)

Module PropertyService.
Import JsError RentCastService.

(** [lookupProperty(address)]. *)
Definition lookupProperty (properties : string -> Result PropertiesData)
    (address : string) : Result Property :=
  match getPropertyByAddress properties address with
  | Return record => Return (RentCastMapper.mapToProperty record)
  | Throw error =>
      if instanceofError error then
        if includes (messageOf error) "not found" then
          Throw (Error ("Property not found: " ++ address ++
                        ". Please check the address and try again."))
        else if includes (messageOf error) "rate limit" then
          Throw (Error "Service temporarily unavailable. Please try again in a few minutes.")
        else Throw error
      else Throw error
  end.

End PropertyService.

(** ** [PropertyService.getComparableSales] when the request fails *)

Module PropertyServiceComparables.
Import JsError RentCastService.

Section Mapping.

(** The listings of the data provider and the callback of the [map] in
    [getComparableSales] ([mapToComparable] and the distance computation),
    neither of which is looked into here. *)
Variable RentCastComparable : Type.
Variable mapped : RentCastComparable -> Comparable.

(** What [propertyService.getComparableSales] returns or throws when the
    request made by [rentCastService.getComparableSales] throws [error]:
    the service's [catch] block decides, and the property service, which
    has no [catch], maps what is returned. *)
Definition getComparableSales_whenRequestFails (error : thrown)
    : Result (list Comparable) :=
  match @getComparableSales_catch RentCastComparable error with
  | Return comparables => Return (map mapped comparables)
  | Throw e => Throw e
  end.

End Mapping.

End PropertyServiceComparables.

(** ** The [POST] handler of [app/api/analysis/route.ts] *)

Module AnalysisRoute.
Import JsError.

(** [addressData] of the request body when it is an object; a field is
    [None] when it is absent or not a string. *)
Record AddressData : Type := mkAddressData {
  line1 : option string;
  adCity : option string;
  adState : option string;
  adZipCode : option string
}.

(** The request body after destructuring: [address] is [None] when it is
    not a string, the two others when they are absent or not objects. *)
Record Body : Type := mkBody {
  bodyAddress : option string;
  addressData : option AddressData;
  verifiedProperty : option Property
}.

(** What [request.json()] resolves to: [null], or any other value, seen
    through the three properties that the destructuring reads (a value
    without one of them gives [undefined] for it). *)
Inductive ParsedBody : Type :=
| JsonNull
| JsonValue (body : Body).

(** The message of the [TypeError] raised when the destructuring pattern
    meets [null], in the wording of V8, the engine of Node.js. *)
Definition destructuringNull : string :=
  "Cannot destructure property 'address' of 'body' as it is null.".

(** A truthy string. *)
Definition truthy (s : option string) : bool :=
  match s with
  | Some s => negb (String.eqb s "")
  | None => false
  end.

(** [isAddressData(value)]. *)
Definition isAddressData (value : option AddressData) : bool :=
  match value with
  | None => false
  | Some data =>
      truthy (line1 data) && truthy (adCity data) && truthy (adState data) &&
      truthy (adZipCode data)
  end.

Definition stringOf (s : option string) : string :=
  match s with
  | Some s => s
  | None => ""
  end.

(** What the handler answers: [NextResponse.json(body, { status })]. *)
Inductive Content : Type :=
| ErrorMessage (error : string)
| Analysis (analysis : option AnalysisService.PropertyAnalysis).

Record Response : Type := mkResponse {
  status : Z;
  content : Content
}.

(** The [catch] block of the handler. *)
Definition POST_catch (error : thrown) : Response :=
  if instanceofError error && includes (messageOf error) "not found" then
    mkResponse 404
      (ErrorMessage "Property not found. Please check the address and try again.")
  else if instanceofError error && includes (messageOf error) "rate limit" then
    mkResponse 429
      (ErrorMessage "Service temporarily unavailable due to high demand. Please try again in a few minutes.")
  else
    mkResponse 500
      (ErrorMessage "An error occurred while analyzing the property. Please try again.").

Section Handler.

(** [String.prototype.trim]. *)
Variable trim : string -> string.

(** [buildRentCastAddress(data)]. *)
Definition buildRentCastAddress (data : AddressData) : string :=
  trim (stringOf (line1 data) ++ ", " ++ stringOf (adCity data) ++ ", " ++
        stringOf (adState data) ++ " " ++ stringOf (adZipCode data)).

(** The address sent to the data provider. *)
Definition addressToUse (address : string) (data : option AddressData) : string :=
  match data with
  | Some d => if isAddressData data then buildRentCastAddress d else trim address
  | None => trim address
  end.

(** The outside world of one request: the parsed body, or what
    [request.json()] threw (a [TypeError] is an [Error] object); the answer of the [/properties] request for an
    address; the outcome of [propertyService.getComparableSales] for a
    subject; what [getPropertyValuation], which never throws, resolves to
    for an address; and the two clock readings. *)
Variable json : Result ParsedBody.
Variable properties : string -> Result RentCastService.PropertiesData.
Variable comparableSales : Property -> Result (list Comparable).
Variable valuation : string -> option AnalysisService.Valuation.
Variable now later : Z.

(** [POST(request)].  The valuation steps are those of
    [AnalysisService.analyzeProperty], which the handler repeats. *)
Definition POST : Response :=
  match json with
  | Throw error => POST_catch error
  | Return JsonNull => POST_catch (Error destructuringNull)
  | Return (JsonValue body) =>
      if negb (truthy (bodyAddress body)) then
        mkResponse 400 (ErrorMessage "Address is required and must be a string")
      else
        let address := stringOf (bodyAddress body) in
        let found :=
          match verifiedProperty body with
          | Some property => Return property
          | None =>
              PropertyService.lookupProperty properties
                (addressToUse address (addressData body))
          end in
        match found with
        | Throw error => POST_catch error
        | Return property =>
            match comparableSales property with
            | Throw error => POST_catch error
            | Return rawComparables =>
                mkResponse 200
                  (Analysis
                     (AnalysisService.analyzeProperty now property rawComparables
                        (valuation (addressToUse address (addressData body)))
                        later))
            end
        end
  end.

End Handler.

End AnalysisRoute.

(** ** Example requests *)

Module RouteExample.
Import JsError RentCastService AnalysisRoute.

(** A record with the assessments of two years. *)
Definition record : RentCastPropertyRecord :=
  mkRentCastPropertyRecord "p1" "1 Main St" "Denver" "CO" "80202" "Single Family"
    3 2 2000 0.25 2010
    (Some [("2023"%string, mkTaxAssessment 2023 480000 100000 380000);
           ("2024"%string, mkTaxAssessment 2024 500000 100000 400000)]).

(** A request that names an address only. *)
Definition body : Body := mkBody (Some "1 Main St, Denver, CO 80202"%string) None None.

(** A request that carries a verified property. *)
Definition verifiedBody : Body :=
  mkBody (Some "1 Main St, Denver, CO 80202"%string) None (Some Scenario.subjectA).

(** A stand-in for [trim] on strings without surrounding white space. *)
Definition noTrim (s : string) : string := s.

Definition noProperties (address : string) : Result PropertiesData :=
  Return (DataArray []).

Definition rateLimited (address : string) : Result PropertiesData :=
  Throw (AxiosError (Some 429%Z) "Request failed with status code 429").

Definition serverError : thrown :=
  AxiosError (Some 500%Z) "Request failed with status code 500".

Definition noComparables (property : Property) : Result (list Comparable) :=
  Return [].

Definition failedComparables (property : Property) : Result (list Comparable) :=
  PropertyServiceComparables.getComparableSales_whenRequestFails unit
    (fun _ => Scenario.saleOfMarch) serverError.

Definition noValuation (address : string) : option AnalysisService.Valuation := None.

End RouteExample.

(** * Properties *)

(** ** Rational comparisons *)

Lemma Qltb_lt (a b : Q) : JsNumber.Qltb a b = true <-> a < b.
Proof.
  unfold JsNumber.Qltb. rewrite negb_true_iff.
  split; intro H.
  - apply Qnot_le_lt. intro Hle. apply Qle_bool_iff in Hle. congruence.
  - destruct (Qle_bool b a) eqn:E; [|reflexivity].
    apply Qle_bool_iff in E. exfalso. apply (Qlt_not_le _ _ H E).
Qed.

Lemma Qltb_ge (a b : Q) : JsNumber.Qltb a b = false <-> b <= a.
Proof.
  unfold JsNumber.Qltb. rewrite negb_false_iff. apply Qle_bool_iff.
Qed.

Lemma Qle_bool_gt (a b : Q) : Qle_bool a b = false <-> b < a.
Proof.
  rewrite <- Qltb_lt. unfold JsNumber.Qltb. now rewrite negb_true_iff.
Qed.

Lemma div_pos (a b : Q) : 0 < b -> JsNumber.div a b = JsNumber.Fin (a / b).
Proof.
  intro Hb. unfold JsNumber.div.
  destruct (Qeq_bool b 0) eqn:E; [|reflexivity].
  apply Qeq_bool_iff in E. rewrite E in Hb. exfalso. apply (Qlt_irrefl _ Hb).
Qed.

(** ** The calendar *)

Module CalendarFacts.
Import JsDate ComparableService Spec.
Open Scope Z_scope.

Lemma allFrom_spec (n : nat) (f : Z -> bool) (lo : Z) :
  allFrom lo n f = true ->
  forall z, lo <= z < lo + Z.of_nat n -> f z = true.
Proof.
  revert lo. induction n as [|n IH]; intros lo H z Hz; [lia|].
  simpl in H. apply andb_true_iff in H. destruct H as [H0 H1].
  destruct (Z.eq_dec z lo) as [->|Hne]; [exact H0|].
  apply (IH (lo + 1) H1). lia.
Qed.

Lemma civil_eqb_eq (a b : Z * Z * Z) : civil_eqb a b = true -> a = b.
Proof.
  destruct a as [[y1 m1] d1], b as [[y2 m2] d2]. simpl.
  rewrite !andb_true_iff, !Z.eqb_eq. intros [[-> ->] ->]. reflexivity.
Qed.

(** Both conversions commute with a shift by whole 400-year cycles. *)
Lemma days_from_civil_era (y m d k : Z) :
  days_from_civil (y + 400 * k) m d = days_from_civil y m d + 146097 * k.
Proof.
  unfold days_from_civil. cbv zeta.
  set (y0 := if m <=? 2 then y - 1 else y).
  assert (E : (if m <=? 2 then y + 400 * k - 1 else y + 400 * k) = y0 + k * 400)
    by (unfold y0; destruct (m <=? 2); ring).
  rewrite E, Z.div_add by lia.
  replace (y0 + k * 400 - (y0 / 400 + k) * 400) with (y0 - y0 / 400 * 400) by ring.
  ring.
Qed.

Lemma civil_from_days_era (z k : Z) :
  civil_from_days (z + 146097 * k) =
  let '(y, m, d) := civil_from_days z in (y + 400 * k, m, d).
Proof.
  unfold civil_from_days.
  replace (z + 146097 * k + 719468) with (z + 719468 + k * 146097) by ring.
  rewrite Z.div_add by lia.
  replace (z + 719468 + k * 146097 - ((z + 719468) / 146097 + k) * 146097)
    with (z + 719468 - (z + 719468) / 146097 * 146097) by ring.
  set (doe := z + 719468 - (z + 719468) / 146097 * 146097).
  cbv zeta.
  destruct (_ <=? 2); f_equal; f_equal; ring.
Qed.

(** Days 1 to 28 of every month of one cycle, by evaluation. *)
Lemma roundtrip_cycle :
  allFrom 0 400 (fun y =>
    allFrom 1 12 (fun m =>
      allFrom 1 28 (fun d =>
        civil_eqb (civil_from_days (days_from_civil y m 1 + d - 1)) (y, m, d))))
  = true.
Proof. vm_cast_no_check (eq_refl true). Qed.

Lemma civil_from_days_from_civil (y m d : Z) :
  1 <= m <= 12 -> 1 <= d <= 28 ->
  civil_from_days (days_from_civil y m 1 + d - 1) = (y, m, d).
Proof.
  intros Hm Hd.
  assert (Hy : y = y mod 400 + 400 * (y / 400))
    by (pose proof (Z.div_mod y 400); lia).
  rewrite Hy at 1. rewrite days_from_civil_era.
  replace (days_from_civil (y mod 400) m 1 + 146097 * (y / 400) + d - 1)
    with (days_from_civil (y mod 400) m 1 + d - 1 + 146097 * (y / 400)) by ring.
  rewrite civil_from_days_era.
  pose proof (Z.mod_pos_bound y 400 ltac:(lia)) as Hb.
  pose proof (allFrom_spec _ _ _ roundtrip_cycle (y mod 400) ltac:(lia)) as H1.
  pose proof (allFrom_spec _ _ _ H1 m ltac:(lia)) as H2.
  pose proof (allFrom_spec _ _ _ H2 d ltac:(lia)) as H3.
  apply civil_eqb_eq in H3. rewrite H3. f_equal. f_equal. lia.
Qed.

Lemma Day_MakeDate (day t : Z) : 0 <= t < msPerDay -> Day (MakeDate day t) = day.
Proof.
  intro Ht. unfold Day, MakeDate.
  rewrite Z.add_comm, Z.div_add by (unfold msPerDay; lia).
  rewrite Z.div_small by exact Ht. reflexivity.
Qed.

Lemma TimeWithinDay_MakeDate (day t : Z) :
  0 <= t < msPerDay -> TimeWithinDay (MakeDate day t) = t.
Proof.
  intro Ht. unfold TimeWithinDay, MakeDate.
  rewrite Z.add_comm, Z.mod_add by (unfold msPerDay; lia).
  apply Z.mod_small, Ht.
Qed.

(** For a clock reading on one of the first 28 days of a month, the cut-off
    of the filter is the same day of the month, at the same time of day, six
    calendar months earlier. *)
Lemma sixMonthsAgo_calendar (y m d t : Z) :
  1 <= m <= 12 -> 1 <= d <= 28 -> 0 <= t < msPerDay ->
  sixMonthsAgo (instant y m d t) =
  if m <=? 6 then instant (y - 1) (m + 6) d t else instant y (m - 6) d t.
Proof.
  intros Hm Hd Ht.
  assert (Hciv : civil_from_days (Day (instant y m d t)) = (y, m, d)).
  { unfold instant. rewrite Day_MakeDate by exact Ht. unfold MakeDay.
    rewrite Z.div_small, Z.mod_small by lia.
    replace (m - 1 + 1) with m by ring. rewrite Z.add_0_r.
    apply civil_from_days_from_civil; assumption. }
  unfold sixMonthsAgo, setMonth, getMonth, YearFromTime, MonthFromTime, DateFromTime.
  rewrite Hciv. simpl fst. simpl snd.
  unfold instant at 1. rewrite TimeWithinDay_MakeDate by exact Ht.
  unfold instant. f_equal. unfold MakeDay.
  destruct (Z.leb_spec m 6).
  - replace (m - 1 - 6) with (m + 5 + (-1) * 12) by ring.
    rewrite Z.div_add, Z.mod_add by lia.
    rewrite !Z.div_small, !Z.mod_small by lia.
    replace (y + (0 + -1)) with (y - 1 + 0) by ring.
    replace (m + 5 + 1) with (m + 6 - 1 + 1) by ring. reflexivity.
  - rewrite !Z.div_small, !Z.mod_small by lia.
    replace (m - 1 - 6 + 1) with (m - 6 - 1 + 1) by ring. reflexivity.
Qed.

(** On the last days of a month the day of the month may not exist six
    months earlier, and the cut-off runs over into the next month: from
    31 August 2024, noon, it is 2 March 2024, noon. *)
Example sixMonthsAgo_end_of_august :
  sixMonthsAgo (instant 2024 8 31 43200000) = instant 2024 3 2 43200000.
Proof. vm_compute. reflexivity. Qed.

Example scenario_instants :
  Scenario.firstOfAugust = instant 2024 8 1 0 /\
  Scenario.firstOfOctober = instant 2024 10 1 0 /\
  saleDate Scenario.saleOfMarch = instant 2024 3 1 0.
Proof. vm_compute. repeat split. Qed.

(** The month of every day number lies in 1..12. *)
Lemma civil_month_range (z : Z) : 1 <= snd (fst (civil_from_days z)) <= 12.
Proof.
  unfold civil_from_days. cbv zeta. cbn [fst snd].
  set (doe := z + 719468 - (z + 719468) / 146097 * 146097).
  assert (Hdoe : 0 <= doe < 146097).
  { unfold doe. pose proof (Z.div_mod (z + 719468) 146097 ltac:(lia)).
    pose proof (Z.mod_pos_bound (z + 719468) 146097 ltac:(lia)). lia. }
  clearbody doe.
  set (yoe := (doe - doe / 1460 + doe / 36524 - doe / 146096) / 365).
  set (doy := doe - (365 * yoe + yoe / 4 - yoe / 100)).
  assert (Hdoy : -60 <= doy <= 600).
  { unfold doy, yoe. Z.to_euclidean_division_equations. lia. }
  clearbody doy.
  destruct (Z.ltb_spec ((5 * doy + 2) / 153) 10);
    Z.to_euclidean_division_equations; lia.
Qed.

(** An instant is affine in the day of the month. *)
Lemma instant_day (y m d d' t : Z) :
  instant y m d t = instant y m d' t + (d - d') * msPerDay.
Proof. unfold instant, MakeDate, MakeDay. ring. Qed.

(** The cut-off of the filter in calendar terms, for every clock reading:
    the day of the month and the time of day of [now] in the month six
    months back, whether that month has such a day or not. *)
Lemma sixMonthsAgo_instant (now : Z) :
  sixMonthsAgo now =
  let '(y, m, d) := civil_from_days (Day now) in
  let '(y', m') := sixMonthsBack y m in
  instant y' m' d (TimeWithinDay now).
Proof.
  unfold sixMonthsAgo, setMonth, getMonth, YearFromTime, MonthFromTime, DateFromTime.
  pose proof (civil_month_range (Day now)) as Hm.
  destruct (civil_from_days (Day now)) as [[y m] d]. simpl in *.
  unfold sixMonthsBack, instant. destruct (Z.leb_spec m 6).
  - f_equal. unfold MakeDay.
    replace (m - 1 - 6) with (m + 5 + (-1) * 12) by ring.
    rewrite Z.div_add, Z.mod_add by lia.
    rewrite !Z.div_small, !Z.mod_small by lia.
    replace (y + (0 + -1)) with (y - 1 + 0) by ring.
    replace (m + 5 + 1) with (m + 6 - 1 + 1) by ring. reflexivity.
  - f_equal. unfold MakeDay.
    rewrite !Z.div_small, !Z.mod_small by lia.
    replace (m - 1 - 6 + 1) with (m - 6 - 1 + 1) by ring. reflexivity.
Qed.

(** The cut-off of the filter is never earlier than the date six calendar
    months back, and it is that date when the day of the month exists
    there. *)
Lemma sixMonthsAgo_not_earlier (now : Z) :
  sixCalendarMonthsBefore now <= sixMonthsAgo now.
Proof.
  rewrite sixMonthsAgo_instant. unfold sixCalendarMonthsBefore.
  destruct (civil_from_days (Day now)) as [[y m] d].
  destruct (sixMonthsBack y m) as [y' m'].
  rewrite (instant_day y' m' d (Z.min d (daysInMonth y' m'))).
  unfold msPerDay. nia.
Qed.

Lemma sixMonthsAgo_when_day_exists (now : Z) :
  dayExistsSixMonthsBack now ->
  sixMonthsAgo now = sixCalendarMonthsBefore now.
Proof.
  rewrite sixMonthsAgo_instant. unfold sixCalendarMonthsBefore, dayExistsSixMonthsBack.
  destruct (civil_from_days (Day now)) as [[y m] d].
  destruct (sixMonthsBack y m) as [y' m'].
  intro H. rewrite Z.min_l by exact H. reflexivity.
Qed.

Lemma daysInMonth_at_least_28 (y m : Z) : 28 <= daysInMonth y m.
Proof.
  unfold daysInMonth.
  destruct (m =? 2); [destruct (isLeapYear y); lia|].
  destruct ((m =? 4) || (m =? 6) || (m =? 9) || (m =? 11)); lia.
Qed.

(** Every month has the first 28 days. *)
Lemma first_28_days_exist (now : Z) :
  DateFromTime now <= 28 -> dayExistsSixMonthsBack now.
Proof.
  unfold DateFromTime, dayExistsSixMonthsBack.
  destruct (civil_from_days (Day now)) as [[y m] d]. simpl.
  destruct (sixMonthsBack y m) as [y' m'].
  pose proof (daysInMonth_at_least_28 y' m'). lia.
Qed.

(** The two cut-offs on 31 August 2024, at noon: the calendar gives
    29 February, the filter 2 March. *)
Example cutoffs_end_of_august :
  Scenario.lastOfAugust = instant 2024 8 31 43200000 /\
  sixCalendarMonthsBefore Scenario.lastOfAugust = instant 2024 2 29 43200000 /\
  sixMonthsAgo Scenario.lastOfAugust = instant 2024 3 2 43200000.
Proof. vm_compute. repeat split. Qed.

End CalendarFacts.

(** ** Confidence *)

Module ConfidenceFacts.
Import ComparableService Spec.

Lemma confidenceOfCount_cases (n : nat) :
  (confidenceOfCount n = high /\ 5 <= n)%nat \/
  (confidenceOfCount n = medium /\ 3 <= n <= 4)%nat \/
  (confidenceOfCount n = low /\ n < 3)%nat.
Proof.
  unfold confidenceOfCount.
  destruct (Nat.leb_spec 5 n); [left; split; [reflexivity | lia]|].
  destruct (Nat.leb_spec 3 n); [right; left | right; right]; split;
    (reflexivity || lia).
Qed.

(** C7. For every list of adjusted comparables of length n,
    [calculateConfidence] is high exactly when n >= 5, medium exactly when
    3 <= n <= 4 and low exactly when n < 3; and the confidence never
    decreases when the count grows (in the order low < medium < high). *)
Theorem C7_calculateConfidence_tiers :
  (forall comparables : list Comparable,
      let n := List.length comparables in
      (calculateConfidence comparables = high <-> 5 <= n)%nat /\
      (calculateConfidence comparables = medium <-> 3 <= n <= 4)%nat /\
      (calculateConfidence comparables = low <-> n < 3)%nat) /\
  (forall n m : nat,
      (n <= m)%nat -> (rank (confidenceOfCount n) <= rank (confidenceOfCount m))%nat).
Proof.
  split.
  - intros cs n. unfold calculateConfidence. fold n.
    destruct (confidenceOfCount_cases n) as [[E H] | [[E H] | [E H]]];
      rewrite E; repeat split; intros; try discriminate; try lia.
  - intros n m Hnm.
    destruct (confidenceOfCount_cases n) as [[En Hn] | [[En Hn] | [En Hn]]];
      destruct (confidenceOfCount_cases m) as [[Em Hm] | [[Em Hm] | [Em Hm]]];
      rewrite En, Em; simpl; lia.
Qed.

Lemma C7_witness :
  (2 <= 6)%nat /\ (rank (confidenceOfCount 2) <= rank (confidenceOfCount 6))%nat.
Proof.
  split; [lia | apply (proj2 C7_calculateConfidence_tiers 2%nat 6%nat); lia].
Defined.

End ConfidenceFacts.

(** ** Adjustments *)

Module AdjustmentFacts.
Import ComparableService.

Lemma fold_left_Qplus_acc (l : list Q) (a : Q) :
  fold_left (fun sum adj => sum + adj) l a ==
  a + fold_left (fun sum adj => sum + adj) l 0.
Proof.
  revert a. induction l as [|x l IH]; intro a; simpl.
  - ring.
  - rewrite (IH (a + x)), (IH (0 + x)). ring.
Qed.

(** C3. For every subject property and comparable, [calculateAdjustments]
    yields exactly the five entries size, bedroom, bathroom, lotSize and
    age, each the negated feature difference (comparable minus subject)
    times its rate (150, 25000, 15000, 50000, 1000); and the comparable
    that [processComparables] builds from them has
    adjustedPrice = salePrice + the sum of the five amounts. *)
Theorem C3_adjustments_and_adjustedPrice
    (subjectProperty : Property) (comparable : Comparable) :
  let s := propertyCharacteristics subjectProperty in
  let c := characteristics comparable in
  let adj := calculateAdjustments subjectProperty comparable in
  exists size bedroom bathroom lot age : Q,
    adj = [("size"%string, size); ("bedroom"%string, bedroom);
           ("bathroom"%string, bathroom); ("lotSize"%string, lot);
           ("age"%string, age)] /\
    size == - (sqft c - sqft s) * 150 /\
    bedroom == - (bedrooms c - bedrooms s) * 25000 /\
    bathroom == - (bathrooms c - bathrooms s) * 15000 /\
    lot == - (lotSize c - lotSize s) * 50000 /\
    age == - (yearBuilt c - yearBuilt s) * 1000 /\
    adjustments (adjustComparable subjectProperty comparable) = adj /\
    adjustedPrice (adjustComparable subjectProperty comparable) ==
      salePrice comparable + (size + bedroom + bathroom + lot + age) /\
    adjustedPrice (applyAdjustments comparable) ==
      salePrice comparable +
      fold_right Qplus 0 (obj_values (adjustments comparable)).
Proof.
  intros s c adj.
  exists (- ((sqft c - sqft s) * 150)), (- ((bedrooms c - bedrooms s) * 25000)),
    (- ((bathrooms c - bathrooms s) * 15000)), (- ((lotSize c - lotSize s) * 50000)),
    (- ((yearBuilt c - yearBuilt s) * 1000)).
  split; [reflexivity|].
  repeat (split; [ring|]).
  split; [reflexivity|].
  split.
  - unfold adjustComparable, applyAdjustments. simpl. fold s c. ring.
  - unfold applyAdjustments. simpl.
    apply Qplus_comp; [reflexivity|].
    induction (obj_values (adjustments comparable)) as [|x l IH]; simpl.
    + reflexivity.
    + rewrite fold_left_Qplus_acc, IH. ring.
Qed.

End AdjustmentFacts.

(** ** Blending, verdict and savings *)

Module AnalysisFacts.
Import AnalysisService.

Lemma avmValueOf_nonzero (avmResult : option Valuation) (v : Q) :
  avmValueOf avmResult = Some v -> Qeq_bool v 0 = false.
Proof.
  destruct avmResult as [r|]; simpl; [|discriminate].
  destruct (Qeq_bool (value r) 0) eqn:E; [discriminate|].
  intro H. injection H as <-. exact E.
Qed.

Lemma verdictOf_cases (p : Q) :
  (verdictOf p = fair /\ Qabs p <= 5) \/
  (verdictOf p = over_assessed /\ 5 < p) \/
  (verdictOf p = under_assessed /\ p < -5).
Proof.
  unfold verdictOf.
  destruct (Qle_bool (Qabs p) 5) eqn:E.
  - left. split; [reflexivity | now apply Qle_bool_iff].
  - apply Qle_bool_gt in E.
    destruct (JsNumber.Qltb 5 p) eqn:E5.
    + right; left. split; [reflexivity | now apply Qltb_lt].
    + right; right. split; [reflexivity|].
      apply Qltb_ge in E5.
      apply Qnot_le_lt. intro Hge.
      apply (Qlt_not_le _ _ E). apply Qabs_Qle_condition. split; assumption.
Qed.

Lemma Qabs_le_5_excl (p : Q) : Qabs p <= 5 -> ~ 5 < p /\ ~ p < -5.
Proof.
  intro H. apply Qabs_Qle_condition in H. destruct H as [H1 H2].
  split; intro H3; [apply (Qlt_not_le _ _ H3 H2) | apply (Qlt_not_le _ _ H3 H1)].
Qed.

(** C4. For every pair of an assessed value and a final market value, the
    percentage difference is (assessed - final) / assessed * 100 when the
    assessed value is positive and 0 otherwise; the verdict is fair exactly
    when its absolute value is at most 5, over-assessed exactly when it
    exceeds 5 and under-assessed exactly when it is below -5; an assessed
    value of 0 gives the verdict fair.  The analysis record is built from
    these very quantities. *)
Theorem C4_percentage_and_verdict (assessedValue finalValue : Q) :
  let p := percentageDifferenceOf assessedValue
             (differenceOf assessedValue finalValue) in
  (0 < assessedValue -> p == (assessedValue - finalValue) / assessedValue * 100) /\
  (assessedValue <= 0 -> p == 0) /\
  (verdictOf p = fair <-> Qabs p <= 5) /\
  (verdictOf p = over_assessed <-> 5 < p) /\
  (verdictOf p = under_assessed <-> p < -5) /\
  (assessedValue == 0 -> verdictOf p = fair) /\
  (forall prop cs mv conf avm later,
      let r := assess prop cs mv conf avm later in
      difference r = differenceOf (AnalysisService.assessedValue r) (marketValue r) /\
      percentageDifference r =
        percentageDifferenceOf (AnalysisService.assessedValue r) (difference r) /\
      verdict r = verdictOf (percentageDifference r)).
Proof.
  intro p.
  assert (Hpos : 0 < assessedValue ->
                 p == (assessedValue - finalValue) / assessedValue * 100).
  { intro H. unfold p, percentageDifferenceOf, differenceOf.
    apply Qltb_lt in H. rewrite H. reflexivity. }
  assert (Hneg : assessedValue <= 0 -> p == 0).
  { intro H. unfold p, percentageDifferenceOf.
    apply Qltb_ge in H. rewrite H. reflexivity. }
  split; [exact Hpos|]. split; [exact Hneg|].
  destruct (verdictOf_cases p) as [[E H] | [[E H] | [E H]]]; rewrite E.
  - destruct (Qabs_le_5_excl p H) as [H1 H2].
    repeat split; intros; try discriminate; try assumption; try contradiction;
      reflexivity.
  - assert (~ Qabs p <= 5) by (intro A; apply (proj1 (Qabs_le_5_excl p A)), H).
    assert (~ p < -5) by (intro A; apply (Qlt_irrefl p); lra).
    assert (~ assessedValue == 0).
    { intro A. assert (Hp : p == 0) by (apply Hneg; rewrite A; apply Qle_refl).
      rewrite Hp in H. lra. }
    repeat split; intros; try discriminate; try assumption; try contradiction;
      reflexivity.
  - assert (~ Qabs p <= 5) by (intro A; apply (proj2 (Qabs_le_5_excl p A)), H).
    assert (~ 5 < p) by (intro A; apply (Qlt_irrefl p); lra).
    assert (~ assessedValue == 0).
    { intro A. assert (Hp : p == 0) by (apply Hneg; rewrite A; apply Qle_refl).
      rewrite Hp in H. lra. }
    repeat split; intros; try discriminate; try assumption; try contradiction;
      reflexivity.
Qed.

Lemma C4_witness :
  (0 < 500000 /\
   percentageDifferenceOf 500000 (differenceOf 500000 440000) ==
     (500000 - 440000) / 500000 * 100) /\
  (0 <= 0 /\ percentageDifferenceOf 0 (differenceOf 0 440000) == 0) /\
  (0 == 0 /\
   verdictOf (percentageDifferenceOf 0 (differenceOf 0 440000)) = fair).
Proof.
  split; [|split].
  - split; [reflexivity|].
    apply (proj1 (C4_percentage_and_verdict 500000 440000)). reflexivity.
  - split; [apply Qle_refl|].
    apply (proj1 (proj2 (C4_percentage_and_verdict 0 440000))). apply Qle_refl.
  - split; [reflexivity|].
    apply (proj1 (proj2 (proj2 (proj2 (proj2 (proj2
             (C4_percentage_and_verdict 0 440000))))))).
    reflexivity.
Defined.

(** C5. For every comparable-derived market value, every answer of the
    valuation provider and every sample size: when an AVM value is
    available and fewer than 3 comparables were used the final value is
    0.7 * marketValue + 0.3 * avmValue; when it is available and at least 3
    were used the final value is the market value; when it is unavailable
    the final value is the market value.  With 2 comparables, a market
    value of 400000 and an AVM value of 410000 the final value is 403000. *)
Theorem C5_finalMarketValue_blend
    (marketValue : Q) (avmResult : option Valuation) (sampleSize : nat) :
  let avmValue := avmValueOf avmResult in
  let finalValue := finalMarketValueOf marketValue avmValue sampleSize in
  (forall avm, avmValue = Some avm -> (sampleSize < 3)%nat ->
               finalValue == 0.7 * marketValue + 0.3 * avm) /\
  (forall avm, avmValue = Some avm -> (3 <= sampleSize)%nat ->
               finalValue == marketValue) /\
  (avmValue = None -> finalValue == marketValue) /\
  (forall prop cs conf c later,
      List.length cs = 2%nat ->
      AnalysisService.marketValue
        (assess prop cs 400000 conf
           (avmValueOf (Some (mkValuation 410000 c))) later) == 403000).
Proof.
  intros avmValue finalValue. unfold finalValue, finalMarketValueOf.
  repeat split.
  - intros avm E Hn. rewrite E.
    apply avmValueOf_nonzero in E. rewrite E.
    apply Nat.ltb_lt in Hn. rewrite Hn. simpl. ring.
  - intros avm E Hn. rewrite E.
    apply Nat.ltb_ge in Hn. rewrite Hn, andb_false_r. reflexivity.
  - intros E. rewrite E. reflexivity.
  - intros prop cs conf c later Hlen. simpl. rewrite Hlen. reflexivity.
Qed.

Lemma C5_witness :
  (avmValueOf (Some (mkValuation 410000 medium)) = Some 410000 /\
   (2 < 3)%nat /\
   finalMarketValueOf 400000 (avmValueOf (Some (mkValuation 410000 medium))) 2
     == 0.7 * 400000 + 0.3 * 410000) /\
  ((3 <= 3)%nat /\
   finalMarketValueOf 400000 (avmValueOf (Some (mkValuation 410000 medium))) 3
     == 400000) /\
  (avmValueOf None = None /\
   finalMarketValueOf 400000 (avmValueOf None) 2 == 400000).
Proof.
  split; [|split].
  - split; [reflexivity|]. split; [lia|].
    apply (proj1 (C5_finalMarketValue_blend 400000
                    (Some (mkValuation 410000 medium)) 2%nat) 410000);
      [reflexivity | lia].
  - split; [lia|].
    apply (proj1 (proj2 (C5_finalMarketValue_blend 400000
                           (Some (mkValuation 410000 medium)) 3%nat)) 410000);
      [reflexivity | lia].
  - split; [reflexivity|].
    apply (proj1 (proj2 (proj2 (C5_finalMarketValue_blend 400000 None 2%nat)))).
    reflexivity.
Defined.

(** C6. For every difference and verdict, the annual savings are
    |difference| * 0.055 when the verdict is over-assessed and 0 otherwise,
    and the monthly savings are the annual savings divided by 12; hence the
    annual savings are never negative, and are 0 whenever the verdict is
    not over-assessed.  The analysis record is built from these very
    quantities. *)
Theorem C6_savings (difference : Q) (verdict : Verdict) :
  let annual := annualSavingsOf verdict difference in
  taxRate == 0.055 /\
  (verdict = over_assessed -> annual == Qabs difference * taxRate) /\
  (verdict <> over_assessed -> annual == 0) /\
  monthlySavingsOf annual == annual / 12 /\
  0 <= annual /\
  (forall prop cs mv conf avm later,
      let r := assess prop cs mv conf avm later in
      annualSavings r =
        annualSavingsOf (AnalysisService.verdict r) (AnalysisService.difference r) /\
      monthlySavings r = monthlySavingsOf (annualSavings r) /\
      analysisTaxRate r = taxRate).
Proof.
  intro annual. unfold annual.
  split; [reflexivity|].
  split; [intros ->; reflexivity|].
  split; [intro H; destruct verdict; (reflexivity || congruence)|].
  split; [reflexivity|].
  split.
  - destruct verdict; simpl; try apply Qle_refl.
    apply Qmult_le_0_compat; [apply Qabs_nonneg | unfold taxRate; lra].
  - intros. repeat split.
Qed.

Lemma C6_witness :
  (over_assessed = over_assessed /\
   annualSavingsOf over_assessed 60000 == Qabs 60000 * taxRate) /\
  (under_assessed <> over_assessed /\
   annualSavingsOf under_assessed (-60000) == 0).
Proof.
  split.
  - split; [reflexivity|].
    apply (proj1 (proj2 (C6_savings 60000 over_assessed))). reflexivity.
  - split; [discriminate|].
    apply (proj1 (proj2 (proj2 (C6_savings (-60000) under_assessed)))).
    discriminate.
Defined.

End AnalysisFacts.

(** ** Sorting, trimming and the median *)

Module AggregatorFacts.
Import JsArray ComparableService Spec.

Lemma insert_perm (x : Q) (l : list Q) : Permutation (insert x l) (x :: l).
Proof.
  induction l as [|y l IH]; simpl.
  - apply Permutation_refl.
  - destruct (Qle_bool x y).
    + apply Permutation_refl.
    + apply perm_trans with (y :: x :: l).
      * apply perm_skip, IH.
      * apply perm_swap.
Qed.

Lemma sort_perm (l : list Q) : Permutation (sort l) l.
Proof.
  induction l as [|x l IH]; simpl.
  - apply perm_nil.
  - apply perm_trans with (x :: sort l).
    + apply insert_perm.
    + apply perm_skip, IH.
Qed.

Lemma sort_length (l : list Q) : List.length (sort l) = List.length l.
Proof. apply Permutation_length, sort_perm. Qed.

Lemma insert_sorted (x : Q) (l : list Q) :
  StronglySorted Qle l -> StronglySorted Qle (insert x l).
Proof.
  induction 1 as [|y l Hs IH Hall]; simpl.
  - repeat constructor.
  - destruct (Qle_bool x y) eqn:E.
    + apply Qle_bool_iff in E.
      constructor; [constructor; assumption|].
      constructor; [assumption|].
      eapply Forall_impl; [|exact Hall].
      intros z Hz. eapply Qle_trans; eassumption.
    + apply Qle_bool_gt in E.
      constructor; [assumption|].
      apply (Permutation_Forall (Permutation_sym (insert_perm x l))).
      constructor; [apply Qlt_le_weak, E | assumption].
Qed.

Lemma sort_sorted (l : list Q) : StronglySorted Qle (sort l).
Proof.
  induction l as [|x l IH]; simpl.
  - constructor.
  - apply insert_sorted, IH.
Qed.

(** [Math.floor(n * 0.2)] is the integer quotient of [n] by 5. *)
Lemma removeCountOf_div5 (n : nat) : removeCountOf n = Z.of_nat (n / 5).
Proof.
  unfold removeCountOf.
  rewrite Nat2Z.inj_div. change (Z.of_nat 5) with 5%Z.
  rewrite (Zdiv_Qdiv (Z.of_nat n) 5).
  apply Qfloor_comp. unfold Qdiv. apply Qmult_comp; reflexivity.
Qed.

Lemma double_removeCount_lt (n : nat) :
  (0 < n)%nat -> (2 * removeCountOf n < Z.of_nat n)%Z.
Proof.
  intro Hn. rewrite removeCountOf_div5.
  assert (H := Nat.Div0.mul_div_le n 5). lia.
Qed.

(** [slice] between two indices in range. *)
Lemma slice_in_range {A : Type} (l : list A) (i j : nat) :
  (i <= j <= List.length l)%nat ->
  slice l (Z.of_nat i) (Z.of_nat j) = firstn (j - i) (skipn i l).
Proof.
  intro H. unfold slice, clamp.
  destruct (Z.ltb_spec (Z.of_nat i) 0); [lia|].
  destruct (Z.ltb_spec (Z.of_nat j) 0); [lia|].
  rewrite !Z.min_l by lia. rewrite Z.max_l by lia.
  rewrite Nat2Z.id. f_equal. lia.
Qed.

Lemma slice_splits {A : Type} (l : list A) (i j : nat) :
  (i <= j <= List.length l)%nat ->
  l = firstn i l ++ slice l (Z.of_nat i) (Z.of_nat j) ++ skipn j l /\
  List.length (slice l (Z.of_nat i) (Z.of_nat j)) = (j - i)%nat.
Proof.
  intro H. rewrite slice_in_range by exact H. split.
  - rewrite <- (firstn_skipn i l) at 1. f_equal.
    rewrite <- (firstn_skipn (j - i) (skipn i l)) at 1. f_equal.
    rewrite skipn_skipn. f_equal. lia.
  - rewrite length_firstn, length_skipn. lia.
Qed.

Lemma get_in_range {A : Type} (l : list A) (i : Z) (d : A) :
  (0 <= i < Z.of_nat (List.length l))%Z ->
  get l i = Some (nth (Z.to_nat i) l d).
Proof.
  intro H. unfold get.
  destruct (Z.ltb_spec i 0); [lia|].
  apply nth_error_nth'. lia.
Qed.

Lemma medianOfTrimmed_median (l : list Q) :
  l <> [] -> medianOfTrimmed l = Some (median l).
Proof.
  intro Hne.
  assert (Hlen : (0 < List.length l)%nat) by (destruct l; simpl; [congruence | lia]).
  unfold medianOfTrimmed, median.
  set (m := List.length l) in *.
  assert (Hmid : Qfloor (inject_Z (Z.of_nat m) / 2) = Z.of_nat (m / 2)).
  { rewrite Nat2Z.inj_div. symmetry. apply (Zdiv_Qdiv (Z.of_nat m) 2). }
  rewrite Hmid.
  assert (Hdm := Nat.div_mod_eq m 2).
  assert (Hmod : (Z.of_nat m mod 2)%Z = Z.of_nat (m mod 2))
    by (rewrite Nat2Z.inj_mod; reflexivity).
  rewrite Hmod.
  destruct (Nat.even m) eqn:Ev.
  - assert (H0 : (m mod 2 = 0)%nat).
    { apply Nat.even_spec in Ev. destruct Ev as [k Hk].
      rewrite Hk, Nat.mul_comm. apply Nat.Div0.mod_mul. }
    rewrite H0. simpl Z.eqb. cbv iota.
    rewrite (get_in_range l (Z.of_nat (m / 2) - 1) 0) by (fold m; lia).
    rewrite (get_in_range l (Z.of_nat (m / 2)) 0) by (fold m; lia).
    rewrite Nat2Z.id.
    replace (Z.to_nat (Z.of_nat (m / 2) - 1)) with (m / 2 - 1)%nat by lia.
    reflexivity.
  - assert (H1 : (m mod 2 = 1)%nat).
    { assert (Hlt := Nat.mod_upper_bound m 2 ltac:(lia)).
      destruct (m mod 2)%nat as [|[|k]] eqn:E; [|reflexivity|lia].
      exfalso. assert (Nat.even m = true); [|congruence].
      apply Nat.even_spec. exists (m / 2)%nat. lia. }
    rewrite H1. simpl Z.eqb. cbv iota.
    rewrite (get_in_range l (Z.of_nat (m / 2)) 0) by (fold m; lia).
    rewrite Nat2Z.id. reflexivity.
Qed.

(** What [calculateMarketValue] computes on a non-empty array. *)
Lemma calculateMarketValue_nonempty (comparables : list Comparable) :
  comparables <> [] ->
  let n := List.length comparables in
  let prices := sort (map adjustedPrice comparables) in
  let trimmed := slice prices (removeCountOf n) (Z.of_nat n - removeCountOf n) in
  prices = firstn (n / 5) prices ++ trimmed ++ skipn (n - n / 5) prices /\
  List.length trimmed = (n - 2 * (n / 5))%nat /\
  (0 < List.length trimmed)%nat /\
  calculateMarketValue comparables = medianOfTrimmed trimmed.
Proof.
  intros Hne n prices trimmed.
  assert (Hn : (0 < n)%nat)
    by (unfold n; destruct comparables; simpl; [congruence | lia]).
  assert (Hlen : List.length prices = n)
    by (unfold prices; rewrite sort_length, length_map; reflexivity).
  assert (Hk := Nat.Div0.mul_div_le n 5).
  assert (Hsl : trimmed = slice prices (Z.of_nat (n / 5)) (Z.of_nat (n - n / 5))).
  { unfold trimmed. rewrite removeCountOf_div5. f_equal. lia. }
  destruct (slice_splits prices (n / 5) (n - n / 5)) as [Hsplit Hl];
    [rewrite Hlen; lia|].
  rewrite <- Hsl in Hsplit, Hl.
  split; [exact Hsplit|].
  split; [rewrite Hl; lia|].
  split; [rewrite Hl; lia|].
  unfold calculateMarketValue.
  destruct (Nat.eqb_spec (List.length comparables) 0) as [E|_]; [fold n in E; lia|].
  fold prices. rewrite Hlen. reflexivity.
Qed.

(** C2. [calculateMarketValue] returns 0 on the empty list; on a list of
    n > 0 comparables it sorts the adjusted prices in ascending order,
    drops exactly floor(n * 0.2) of them at each end and returns the median
    of the rest: the mean of the two middle values when their number is
    even, the middle value when it is odd. *)
Theorem C2_calculateMarketValue_trimmed_median (comparables : list Comparable) :
  (comparables = [] -> calculateMarketValue comparables = Some 0) /\
  (comparables <> [] ->
   let n := List.length comparables in
   exists (k : nat) (lowest trimmed highest : list Q),
     Z.of_nat k = Qfloor (inject_Z (Z.of_nat n) * 0.2) /\
     Permutation (lowest ++ trimmed ++ highest) (map adjustedPrice comparables) /\
     StronglySorted Qle (lowest ++ trimmed ++ highest) /\
     List.length lowest = k /\
     List.length highest = k /\
     List.length trimmed = (n - 2 * k)%nat /\
     calculateMarketValue comparables = Some (median trimmed)).
Proof.
  split.
  - intros ->. reflexivity.
  - intros Hne n.
    destruct (calculateMarketValue_nonempty comparables Hne)
      as (Hsplit & Hl & Hpos & Hmv).
    fold n in Hsplit, Hl, Hpos, Hmv.
    set (prices := sort (map adjustedPrice comparables)) in *.
    set (trimmed := slice prices (removeCountOf n) (Z.of_nat n - removeCountOf n)) in *.
    assert (Hlen : List.length prices = n)
      by (unfold prices; rewrite sort_length, length_map; reflexivity).
    assert (Hk := Nat.Div0.mul_div_le n 5).
    exists (n / 5)%nat, (firstn (n / 5) prices), trimmed, (skipn (n - n / 5) prices).
    split; [symmetry; apply removeCountOf_div5|].
    rewrite <- Hsplit.
    split; [apply sort_perm|].
    split; [apply sort_sorted|].
    split; [rewrite length_firstn, Hlen; lia|].
    split; [rewrite length_skipn, Hlen; lia|].
    split; [exact Hl|].
    rewrite Hmv. apply medianOfTrimmed_median.
    intro E. rewrite E in Hpos. simpl in Hpos. lia.
Qed.

Lemma C2_witness :
  (@nil Comparable = [] /\ calculateMarketValue [] = Some 0) /\
  ([Scenario.saleOfMarch] <> [] /\
   exists trimmed : list Q,
     calculateMarketValue [Scenario.saleOfMarch] = Some (median trimmed)).
Proof.
  split.
  - split; [reflexivity|].
    apply (proj1 (C2_calculateMarketValue_trimmed_median [])). reflexivity.
  - split; [discriminate|].
    destruct (proj2 (C2_calculateMarketValue_trimmed_median [Scenario.saleOfMarch])
                ltac:(discriminate))
      as (k & lo & tr & hi & _ & _ & _ & _ & _ & _ & H).
    exists tr. exact H.
Defined.

(** C10. For every non-empty list of n adjusted comparables,
    2 * floor(n * 0.2) < n, so the trimmed array is not empty; the indices
    read by the median step ([mid], and [mid - 1] for an even count) lie
    inside it; and [calculateMarketValue] yields a number. *)
Theorem C10_aggregation_total (comparables : list Comparable) :
  comparables <> [] ->
  let n := List.length comparables in
  let prices := sort (map adjustedPrice comparables) in
  let trimmed := slice prices (removeCountOf n) (Z.of_nat n - removeCountOf n) in
  let len := Z.of_nat (List.length trimmed) in
  let mid := Qfloor (inject_Z len / 2) in
  (2 * Qfloor (inject_Z (Z.of_nat n) * 0.2) < Z.of_nat n)%Z /\
  trimmed <> [] /\
  (0 <= mid < len)%Z /\
  ((len mod 2 = 0)%Z -> (0 <= mid - 1 < len)%Z) /\
  exists v : Q, calculateMarketValue comparables = Some v.
Proof.
  intros Hne n prices trimmed len mid.
  destruct (calculateMarketValue_nonempty comparables Hne)
    as (_ & _ & Hpos & Hmv).
  fold n prices trimmed in Hpos, Hmv.
  assert (Hn : (0 < n)%nat)
    by (unfold n; destruct comparables; simpl; [congruence | lia]).
  assert (Htr : trimmed <> [])
    by (intro E; rewrite E in Hpos; simpl in Hpos; lia).
  assert (Hmid : mid = (len / 2)%Z)
    by (unfold mid; symmetry; apply (Zdiv_Qdiv len 2)).
  assert (Hlen : (0 < len)%Z) by (unfold len; lia).
  split; [apply (double_removeCount_lt n Hn)|].
  split; [exact Htr|].
  split; [rewrite Hmid; split; [apply Z.div_pos; lia | apply Z.div_lt; lia]|].
  split.
  - intro Hev. rewrite Hmid.
    assert (Hdm := Z.div_mod len 2 ltac:(lia)). lia.
  - exists (median trimmed). rewrite Hmv. apply medianOfTrimmed_median, Htr.
Qed.

Lemma C10_witness :
  [Scenario.saleOfMarch] <> [] /\
  exists v : Q, calculateMarketValue [Scenario.saleOfMarch] = Some v.
Proof.
  split; [discriminate|].
  apply (C10_aggregation_total [Scenario.saleOfMarch]). discriminate.
Defined.

End AggregatorFacts.

(** ** The filter *)

Module FilterFacts.
Import JsNumber ComparableService Spec.

Lemma ratio_check (a b lo hi : Q) :
  0 < b ->
  ltb (div a b) (Fin lo) || gtb (div a b) (Fin hi) = false <->
  lo <= a / b /\ a / b <= hi.
Proof.
  intro Hb. rewrite (div_pos a b Hb). unfold gtb. simpl.
  rewrite orb_false_iff, !Qltb_ge. reflexivity.
Qed.

(** Why the subject's area must not be zero: [0 / 0] is [NaN], which passes
    both comparisons of the size check, and [x / 0] for [x > 0] is
    [Infinity], which fails it. *)
Example size_check_zero_over_zero :
  ltb (div 0 0) (Fin 0.8) || gtb (div 0 0) (Fin 1.2) = false.
Proof. reflexivity. Qed.

Example size_check_positive_over_zero :
  ltb (div 2000 0) (Fin 0.8) || gtb (div 2000 0) (Fin 1.2) = true.
Proof. reflexivity. Qed.

Lemma keepComparable_conditions (now : Z) (subjectProperty : Property)
    (candidate : Comparable) :
  0 < sqft (propertyCharacteristics subjectProperty) ->
  0 < lotSize (propertyCharacteristics subjectProperty) ->
  keepComparable now subjectProperty candidate = true <->
  sizeWithin subjectProperty candidate /\ bedroomsWithin subjectProperty candidate /\
  bathroomsWithin subjectProperty candidate /\ lotWithin subjectProperty candidate /\
  nearby candidate /\ (sixMonthsAgo now <= saleDate candidate)%Z.
Proof.
  intros Hs Hl.
  unfold keepComparable, sizeWithin, bedroomsWithin, bathroomsWithin,
    lotWithin, nearby.
  rewrite <- (ratio_check _ _ 0.8 1.2 Hs), <- (ratio_check _ _ 0.75 1.25 Hl).
  rewrite <- !Qltb_ge, <- Z.ltb_ge.
  repeat match goal with
         | |- context [if ?b then false else _] => destruct b
         end;
    intuition congruence.
Qed.

(** Where the filter and the six conditions of the specification agree.
    For every subject whose living area and lot size are positive, every
    candidate the filter keeps is one of the candidates and meets all six
    conditions, the sale date being not before the date six calendar months
    back; and whenever the day of the month of the clock reading exists in
    the month six months back (always on days 1 to 28), the filter keeps
    every candidate that meets the six conditions. *)
Theorem filterComparables_six_conditions (now : Z)
    (subjectProperty : Property) (candidates : list Comparable) :
  0 < sqft (propertyCharacteristics subjectProperty) ->
  0 < lotSize (propertyCharacteristics subjectProperty) ->
  (forall c : Comparable,
      In c (filterComparables now candidates subjectProperty) ->
      In c candidates /\ allSix now subjectProperty c) /\
  (dayExistsSixMonthsBack now ->
   forall c : Comparable,
     In c candidates -> allSix now subjectProperty c ->
     In c (filterComparables now candidates subjectProperty)) /\
  incl (filterComparables now candidates subjectProperty) candidates.
Proof.
  intros Hs Hl. unfold filterComparables, allSix, soldRecently.
  split; [|split].
  - intros c Hc. apply filter_In in Hc. destruct Hc as [Hin Hk].
    apply (keepComparable_conditions now subjectProperty c Hs Hl) in Hk.
    pose proof (CalendarFacts.sixMonthsAgo_not_earlier now).
    split; [exact Hin|]. intuition lia.
  - intros Hday c Hin Hsix. apply filter_In. split; [exact Hin|].
    apply (keepComparable_conditions now subjectProperty c Hs Hl).
    rewrite (CalendarFacts.sixMonthsAgo_when_day_exists now Hday). exact Hsix.
  - apply incl_filter.
Qed.

Lemma filterComparables_six_conditions_witness :
  In Scenario.saleOfMarch
    (filterComparables Scenario.firstOfAugust [Scenario.saleOfMarch]
       Scenario.subjectA) <->
  allSix Scenario.firstOfAugust Scenario.subjectA Scenario.saleOfMarch.
Proof.
  destruct (filterComparables_six_conditions Scenario.firstOfAugust
              Scenario.subjectA [Scenario.saleOfMarch]
              ltac:(reflexivity) ltac:(reflexivity)) as (Hsound & Hcomplete & _).
  split.
  - intro H. apply (Hsound _ H).
  - apply Hcomplete.
    + apply CalendarFacts.first_28_days_exist. vm_compute. discriminate.
    + left. reflexivity.
Defined.

(** C1. On 31 August 2024, at noon, the date six calendar months back is
    29 February 2024.  A sale of 1 March 2024, half a mile from the subject
    and within every bound on size, bedrooms, bathrooms and lot size, meets
    all six conditions of the specification against the subject, yet
    [filterComparables] drops it: moving the month of 31 August back by six
    gives 31 February, which JavaScript carries over to 2 March. *)
Theorem C1_month_end_divergence :
  0 < sqft (propertyCharacteristics Scenario.subjectA) /\
  0 < lotSize (propertyCharacteristics Scenario.subjectA) /\
  allSix Scenario.lastOfAugust Scenario.subjectA Scenario.saleOfMarch /\
  filterComparables Scenario.lastOfAugust [Scenario.saleOfMarch]
    Scenario.subjectA = [].
Proof.
  split; [reflexivity|]. split; [reflexivity|]. split.
  - unfold allSix, sizeWithin, bedroomsWithin, bathroomsWithin, lotWithin,
      nearby, soldRecently.
    repeat split; try (vm_compute; discriminate).
  - vm_compute. reflexivity.
Qed.

End FilterFacts.

(** ** The pipeline *)

Module PipelineFacts.
Import JsNumber ComparableService AnalysisService Scenario.

Lemma calculateMarketValue_total (cs : list Comparable) :
  exists v : Q, calculateMarketValue cs = Some v.
Proof.
  destruct cs as [|c cs].
  - exists 0. reflexivity.
  - destruct (AggregatorFacts.calculateMarketValue_nonempty (c :: cs))
      as (_ & _ & Hpos & Hmv); [discriminate|].
    eexists. rewrite Hmv. apply AggregatorFacts.medianOfTrimmed_median.
    intro E. rewrite E in Hpos. simpl in Hpos. lia.
Qed.

(** The analysis always produces a result. *)
Lemma analyzeProperty_total (now : Z) (property : Property)
    (rawComparables : list Comparable) (avmResult : option Valuation) (later : Z) :
  exists r, analyzeProperty now property rawComparables avmResult later = Some r.
Proof.
  unfold analyzeProperty, processComparables. simpl.
  destruct (calculateMarketValue_total
              (map (adjustComparable property)
                   (filterComparables now rawComparables property))) as [v Hv].
  rewrite Hv. eexists. reflexivity.
Qed.

(** C8. For every subject with a positive assessed value and every list
    of candidates none of which survives the filter, when no AVM value is
    available the analysis still returns a result, with market value 0,
    confidence low, sample size 0, difference equal to the assessed value,
    percentage difference 100 and verdict over-assessed. *)
Theorem C8_no_comparables_no_avm (now later : Z) (property : Property)
    (rawComparables : list Comparable) (avmResult : option Valuation)
    (assessed : Q) :
  currentAssessedValue property = Some assessed ->
  0 < assessed ->
  filterComparables now rawComparables property = [] ->
  avmValueOf avmResult = None ->
  exists r : PropertyAnalysis,
    analyzeProperty now property rawComparables avmResult later = Some r /\
    AnalysisService.comparables r = [] /\
    AnalysisService.marketValue r == 0 /\
    level (AnalysisService.confidence r) = low /\
    sampleSize (AnalysisService.confidence r) = 0%nat /\
    assessedValue r == assessed /\
    difference r == assessed /\
    percentageDifference r == 100 /\
    verdict r = over_assessed.
Proof.
  intros Ha Hpos Hf Havm.
  unfold analyzeProperty, processComparables. rewrite Hf, Havm. simpl.
  eexists. split; [reflexivity|].
  unfold assess. simpl.
  assert (Hav : assessedValueOf property = assessed).
  { unfold assessedValueOf. rewrite Ha.
    destruct (Qeq_bool assessed 0) eqn:E; [|reflexivity].
    apply Qeq_bool_iff in E. rewrite E in Hpos.
    exfalso. apply (Qlt_irrefl _ Hpos). }
  rewrite Hav.
  assert (Hp : percentageDifferenceOf assessed (differenceOf assessed 0) == 100).
  { unfold percentageDifferenceOf, differenceOf.
    apply Qltb_lt in Hpos. rewrite Hpos. field.
    apply Qltb_lt in Hpos. intro E. rewrite E in Hpos.
    apply (Qlt_irrefl _ Hpos). }
  repeat (split; [try reflexivity|]).
  - unfold differenceOf. ring.
  - exact Hp.
  - destruct (AnalysisFacts.verdictOf_cases
                (percentageDifferenceOf assessed (differenceOf assessed 0)))
      as [[E H] | [[E H] | [E H]]].
    + exfalso. apply Qabs_Qle_condition in H. rewrite Hp in H. lra.
    + exact E.
    + exfalso. rewrite Hp in H. lra.
Qed.

Lemma C8_witness :
  exists r : PropertyAnalysis,
    analyzeProperty firstOfOctober subjectA [saleOfMarch] None 0 = Some r /\
    verdict r = over_assessed.
Proof.
  destruct (C8_no_comparables_no_avm firstOfOctober 0 subjectA [saleOfMarch]
              None 500000) as (r & Hr & _ & _ & _ & _ & _ & _ & _ & Hv);
    [reflexivity | reflexivity | reflexivity | reflexivity |].
  exists r. split; assumption.
Defined.

(** The filter looks at the features, the distance and the sale date only,
    none of which [processComparables] changes. *)
Lemma keepComparable_adjustComparable (now : Z) (subjectProperty property' : Property)
    (comp : Comparable) :
  keepComparable now subjectProperty (adjustComparable property' comp) =
  keepComparable now subjectProperty comp.
Proof. reflexivity. Qed.

Lemma adjustComparable_idempotent (subjectProperty : Property) (comp : Comparable) :
  adjustComparable subjectProperty (adjustComparable subjectProperty comp) =
  adjustComparable subjectProperty comp.
Proof. reflexivity. Qed.

(** The store after the in-place [map]: the objects reached are adjusted,
    the others untouched, however often a reference occurs. *)
Lemma adjustInPlace_read (subjectProperty : Property) (refs : list ref)
    (h : store) (r : ref) :
  adjustInPlace subjectProperty refs h r =
  if in_dec Nat.eq_dec r refs then adjustComparable subjectProperty (h r) else h r.
Proof.
  unfold adjustInPlace. revert h.
  induction refs as [|a refs IH]; intro h; simpl; [reflexivity|].
  rewrite IH. unfold write at 1 2.
  destruct (Nat.eqb_spec r a) as [E|Hne].
  - subst a. destruct (Nat.eq_dec r r) as [Hrr|C]; [|congruence].
    destruct (in_dec Nat.eq_dec r refs);
      [apply adjustComparable_idempotent | reflexivity].
  - destruct (Nat.eq_dec a r) as [C|Har]; [congruence|].
    destruct (in_dec Nat.eq_dec r refs); reflexivity.
Qed.

Lemma filter_map_store (f : Comparable -> bool) (h : store) (refs : list ref) :
  map h (filter (fun r => f (h r)) refs) = filter f (map h refs).
Proof.
  induction refs as [|a refs IH]; simpl; [reflexivity|].
  destruct (f (h a)); simpl; rewrite IH; reflexivity.
Qed.

(** Reading the outcome of the in-place run through the store it leaves
    gives the by-value outcome on the objects read before the run. *)
Lemma processComparablesInPlace_by_value (now : Z) (raw : list ref)
    (subjectProperty : Property) (h : store) :
  let '(out, h') := processComparablesInPlace now raw subjectProperty h in
  readResult h' out = processComparables now (map h raw) subjectProperty /\
  (forall r, h' r = if keepComparable now subjectProperty (h r) && 
                       (if in_dec Nat.eq_dec r raw then true else false)
                    then adjustComparable subjectProperty (h r) else h r).
Proof.
  unfold processComparablesInPlace, processComparables, filterComparables,
    readResult. simpl.
  set (kept := filter (fun r => keepComparable now subjectProperty (h r)) raw).
  set (h' := adjustInPlace subjectProperty kept h).
  assert (Hread : map h' kept =
                  map (adjustComparable subjectProperty)
                      (filter (keepComparable now subjectProperty) (map h raw))).
  { rewrite <- filter_map_store. fold kept. rewrite map_map.
    apply map_ext_in. intros r Hr. unfold h'. rewrite adjustInPlace_read.
    destruct (in_dec Nat.eq_dec r kept); [reflexivity | contradiction]. }
  split.
  - rewrite Hread. reflexivity.
  - intro r. unfold h'. rewrite adjustInPlace_read.
    destruct (in_dec Nat.eq_dec r kept) as [Hin|Hout].
    + apply filter_In in Hin. destruct Hin as [Hraw Hk]. rewrite Hk.
      destruct (in_dec Nat.eq_dec r raw); [reflexivity | contradiction].
    + destruct (keepComparable now subjectProperty (h r)) eqn:Hk; [|reflexivity].
      destruct (in_dec Nat.eq_dec r raw) as [Hraw|]; [|reflexivity].
      exfalso. apply Hout. apply filter_In. split; assumption.
Qed.

Lemma filterComparables_ext (now1 now2 : Z) (raw : list Comparable)
    (subjectProperty : Property) :
  (forall c, In c raw ->
             (saleDate c <? sixMonthsAgo now1)%Z = (saleDate c <? sixMonthsAgo now2)%Z) ->
  filterComparables now1 raw subjectProperty =
  filterComparables now2 raw subjectProperty.
Proof.
  intro H. unfold filterComparables. apply filter_ext_in.
  intros c Hc. unfold keepComparable. rewrite (H c Hc). reflexivity.
Qed.

(** A second in-place run at the same instant finds the same survivors and
    leaves every object as it was. *)
Lemma processComparablesInPlace_again (now : Z) (raw : list ref)
    (subjectProperty : Property) (h : store) :
  let '(out1, h1) := processComparablesInPlace now raw subjectProperty h in
  let '(out2, h2) := processComparablesInPlace now raw subjectProperty h1 in
  out2 = out1 /\ forall r, h2 r = h1 r.
Proof.
  unfold processComparablesInPlace.
  set (kept := filter (fun r => keepComparable now subjectProperty (h r)) raw).
  set (h1 := adjustInPlace subjectProperty kept h).
  assert (Hkeep : forall r, keepComparable now subjectProperty (h1 r) =
                            keepComparable now subjectProperty (h r)).
  { intro r. unfold h1. rewrite adjustInPlace_read.
    destruct (in_dec Nat.eq_dec r kept); reflexivity. }
  assert (Hkept : filter (fun r => keepComparable now subjectProperty (h1 r)) raw = kept).
  { unfold kept. apply filter_ext. exact Hkeep. }
  rewrite Hkept.
  assert (Hsame : forall r, adjustInPlace subjectProperty kept h1 r = h1 r).
  { intro r. rewrite adjustInPlace_read. unfold h1. rewrite adjustInPlace_read.
    destruct (in_dec Nat.eq_dec r kept);
      [apply adjustComparable_idempotent | reflexivity]. }
  assert (Hmap : map (adjustInPlace subjectProperty kept h1) kept = map h1 kept).
  { apply map_ext. exact Hsame. }
  rewrite Hmap. split; [reflexivity | exact Hsame].
Qed.

(** C9, as stated, fails: the filter reads the clock, so two runs on the
    same subject and the same raw comparables differ when a sale date lies
    between their cut-off dates.  Here a sale of 1 March 2024 is kept by a
    run on 1 August 2024 and dropped by a run on 1 October 2024. *)
Lemma C9_counterexample :
  ~ (forall (now1 now2 : Z) (rawComparables : list Comparable)
            (subjectProperty : Property),
        processComparables now1 rawComparables subjectProperty =
        processComparables now2 rawComparables subjectProperty).
Proof.
  intro H.
  specialize (H firstOfAugust firstOfOctober [saleOfMarch] subjectA).
  apply (f_equal (@ComparableService.comparables Comparable)) in H.
  apply (f_equal (@List.length Comparable)) in H.
  vm_compute in H. discriminate H.
Qed.

(** C9, amended. The outcome of [processComparables] is determined by the
    subject, the raw comparables and the clock reading: two runs agree
    (same surviving comparables, market value and confidence) whenever no
    candidate's sale date separates their two cut-off dates, in particular
    when they read the same instant; and a second run at that instant on the
    same array, whose surviving objects the first run has updated in place,
    returns the same outcome and changes no object. *)
Theorem C9_deterministic_given_clock (subjectProperty : Property) :
  (forall (rawComparables : list Comparable) (now1 now2 : Z),
      (forall c, In c rawComparables ->
                 (saleDate c <? sixMonthsAgo now1)%Z =
                 (saleDate c <? sixMonthsAgo now2)%Z) ->
      processComparables now1 rawComparables subjectProperty =
      processComparables now2 rawComparables subjectProperty) /\
  (forall (rawComparables : list ref) (h : store) (now : Z),
      let run1 := processComparablesInPlace now rawComparables subjectProperty h in
      let run2 :=
        processComparablesInPlace now rawComparables subjectProperty (snd run1) in
      fst run2 = fst run1 /\
      (forall r, snd run2 r = snd run1 r) /\
      readResult (snd run1) (fst run1) =
        processComparables now (map h rawComparables) subjectProperty).
Proof.
  split.
  - intros raw now1 now2 H. unfold processComparables.
    rewrite (filterComparables_ext now1 now2 raw subjectProperty H).
    reflexivity.
  - intros raw h now run1 run2.
    assert (A := processComparablesInPlace_again now raw subjectProperty h).
    assert (B := processComparablesInPlace_by_value now raw subjectProperty h).
    fold run1 in A, B. destruct run1 as [out1 h1]. simpl in *.
    fold run2 in A. destruct run2 as [out2 h2]. simpl.
    destruct A as [A1 A2]. destruct B as [B1 _].
    repeat split; assumption.
Qed.

Lemma C9_witness :
  processComparables firstOfAugust [saleOfMarch] subjectA =
  processComparables (firstOfAugust + 1) [saleOfMarch] subjectA.
Proof.
  apply (proj1 (C9_deterministic_given_clock subjectA) [saleOfMarch]).
  intros c [<- | []]. reflexivity.
Defined.

End PipelineFacts.

(** * Further properties *)

(** ** Adjustments *)

Module AdjustmentMore.
Import ComparableService Notions.

(** X1. Each adjustment has the sign opposite to the feature difference
    (comparable minus subject): negative when the comparable has more of the
    feature, positive when it has less, zero when they agree. *)
Theorem adjustment_signs (subjectProperty : Property) (comparable : Comparable) :
  let s := propertyCharacteristics subjectProperty in
  let c := characteristics comparable in
  let adj := calculateAdjustments subjectProperty comparable in
  exists size bedroom bathroom lot age : Q,
    obj_get adj "size" = Some size /\ opposes (sqft c - sqft s) size /\
    obj_get adj "bedroom" = Some bedroom /\ opposes (bedrooms c - bedrooms s) bedroom /\
    obj_get adj "bathroom" = Some bathroom /\ opposes (bathrooms c - bathrooms s) bathroom /\
    obj_get adj "lotSize" = Some lot /\ opposes (lotSize c - lotSize s) lot /\
    obj_get adj "age" = Some age /\ opposes (yearBuilt c - yearBuilt s) age.
Proof.
  intros s c adj. unfold adj, calculateAdjustments. fold s c.
  do 5 eexists.
  repeat match goal with
         | |- obj_get _ _ = Some _ /\ _ => split; [reflexivity|]
         | |- opposes _ _ /\ _ => split
         end;
    unfold opposes; repeat split; intros; lra.
Qed.

(** X2. A comparable that is at least the subject in each of the five
    features (area, bedrooms, bathrooms, lot, year built) is adjusted
    downwards or not at all: its adjusted price is at most its sale price.
    One that is at most the subject in each feature is adjusted upwards or
    not at all. *)
Theorem adjustedPrice_direction (subjectProperty : Property) (comparable : Comparable) :
  let s := propertyCharacteristics subjectProperty in
  let c := characteristics comparable in
  let p := adjustedPrice (adjustComparable subjectProperty comparable) in
  (sqft s <= sqft c -> bedrooms s <= bedrooms c -> bathrooms s <= bathrooms c ->
   lotSize s <= lotSize c -> yearBuilt s <= yearBuilt c -> p <= salePrice comparable) /\
  (sqft c <= sqft s -> bedrooms c <= bedrooms s -> bathrooms c <= bathrooms s ->
   lotSize c <= lotSize s -> yearBuilt c <= yearBuilt s -> salePrice comparable <= p).
Proof.
  intros s c p. unfold p, adjustComparable, applyAdjustments. simpl. fold s c.
  split; intros; lra.
Qed.

Lemma adjustedPrice_direction_witness :
  adjustedPrice (adjustComparable Scenario.subjectA Scenario.saleOfMarch) <=
  salePrice Scenario.saleOfMarch.
Proof.
  apply (proj1 (adjustedPrice_direction Scenario.subjectA Scenario.saleOfMarch));
    unfold Qle; simpl; lia.
Defined.

End AdjustmentMore.

(** ** Aggregation *)

Module AggregatorMore.
Import JsArray ComparableService Spec Notions AggregatorFacts.

Lemma median_within (l : list Q) (lo hi : Q) :
  l <> [] -> (forall x, In x l -> lo <= x <= hi) -> lo <= median l <= hi.
Proof.
  intros Hne Hall.
  assert (Hlen : (0 < List.length l)%nat) by (destruct l; simpl; [congruence | lia]).
  assert (Hnth : forall i, (i < List.length l)%nat -> lo <= nth i l 0 <= hi)
    by (intros i Hi; apply Hall, nth_In, Hi).
  unfold median. set (m := List.length l) in *.
  assert (Hhalf : (m / 2 < m)%nat) by (apply Nat.div_lt; lia).
  destruct (Nat.even m).
  - assert (H1 := Hnth (m / 2 - 1)%nat ltac:(lia)).
    assert (H2 := Hnth (m / 2)%nat Hhalf).
    split.
    + apply Qle_shift_div_l; lra.
    + apply Qle_shift_div_r; lra.
  - apply Hnth, Hhalf.
Qed.

(** X3. The market value of a non-empty list lies within every interval
    that contains all the adjusted prices: it is never below the lowest nor
    above the highest of them. *)
Theorem marketValue_within_prices (comparables : list Comparable) (lo hi : Q) :
  comparables <> [] ->
  (forall c, In c comparables -> lo <= adjustedPrice c <= hi) ->
  exists v : Q, calculateMarketValue comparables = Some v /\ lo <= v <= hi.
Proof.
  intros Hne Hall.
  destruct (calculateMarketValue_nonempty comparables Hne)
    as (Hsplit & _ & Hpos & Hmv).
  set (prices := sort (map adjustedPrice comparables)) in *.
  set (trimmed := slice prices _ _) in *.
  assert (Htr : trimmed <> [])
    by (intro E; rewrite E in Hpos; simpl in Hpos; lia).
  exists (median trimmed). split.
  - rewrite Hmv. apply medianOfTrimmed_median, Htr.
  - apply median_within; [exact Htr|].
    intros x Hx.
    assert (Hin : In x prices).
    { rewrite Hsplit. apply in_or_app. right. apply in_or_app. left. exact Hx. }
    apply (Permutation_in _ (sort_perm _)) in Hin.
    apply in_map_iff in Hin. destruct Hin as (c & <- & Hc). apply Hall, Hc.
Qed.

Lemma marketValue_within_prices_witness :
  exists v : Q,
    calculateMarketValue [Scenario.saleOfMarch; Scenario2.saleOfApril] = Some v /\
    430000 <= v <= 450000.
Proof.
  apply (marketValue_within_prices
           [Scenario.saleOfMarch; Scenario2.saleOfApril] 430000 450000).
  - discriminate.
  - intros c [<- | [<- | []]]; split; unfold Qle; simpl; lia.
Defined.

(** X4. With fewer than five comparables nothing is trimmed: the market
    value is the median of all the adjusted prices, and for a single
    comparable it is that comparable's adjusted price. *)
Theorem marketValue_untrimmed_below_five (comparables : list Comparable) :
  (0 < List.length comparables < 5)%nat ->
  calculateMarketValue comparables =
    Some (median (sort (map adjustedPrice comparables))) /\
  (forall c, comparables = [c] ->
             calculateMarketValue comparables = Some (adjustedPrice c)).
Proof.
  intro Hn.
  assert (Hne : comparables <> []) by (destruct comparables; simpl in *; [lia | congruence]).
  destruct (calculateMarketValue_nonempty comparables Hne) as (_ & _ & _ & Hmv).
  set (n := List.length comparables) in *.
  set (prices := sort (map adjustedPrice comparables)) in *.
  assert (Hlen : List.length prices = n)
    by (unfold prices; rewrite sort_length, length_map; reflexivity).
  assert (Hall : slice prices (removeCountOf n) (Z.of_nat n - removeCountOf n) = prices).
  { rewrite removeCountOf_div5, Nat.div_small by lia.
    replace (Z.of_nat n - Z.of_nat 0)%Z with (Z.of_nat n) by lia.
    rewrite (slice_in_range prices 0 n) by lia.
    rewrite Nat.sub_0_r. simpl skipn. rewrite <- Hlen. apply firstn_all. }
  rewrite Hall in Hmv.
  assert (Hp : prices <> []) by (intro E; rewrite E in Hlen; simpl in Hlen; lia).
  split.
  - rewrite Hmv. apply medianOfTrimmed_median, Hp.
  - intros c ->. reflexivity.
Qed.

Lemma marketValue_untrimmed_below_five_witness :
  calculateMarketValue [Scenario.saleOfMarch; Scenario2.saleOfApril] =
  Some (median (sort (map adjustedPrice
                        [Scenario.saleOfMarch; Scenario2.saleOfApril]))).
Proof.
  apply (proj1 (marketValue_untrimmed_below_five
                  [Scenario.saleOfMarch; Scenario2.saleOfApril]
                  ltac:(simpl; lia))).
Defined.

Lemma perm_filter_length {A : Type} (f : A -> bool) (l1 l2 : list A) :
  Permutation l1 l2 -> List.length (filter f l1) = List.length (filter f l2).
Proof.
  induction 1 as [|x l1 l2 _ IH|x y l|l1 l2 l3 _ IH1 _ IH2]; simpl.
  - reflexivity.
  - destruct (f x); simpl; congruence.
  - destruct (f x), (f y); reflexivity.
  - congruence.
Qed.

Lemma filter_length_mono {A : Type} (f g : A -> bool) (l : list A) :
  (forall x, f x = true -> g x = true) ->
  (List.length (filter f l) <= List.length (filter g l))%nat.
Proof.
  intro H. induction l as [|x l IH]; simpl; [lia|].
  destruct (f x) eqn:E.
  - rewrite (H x E). simpl. lia.
  - destruct (g x); simpl; lia.
Qed.

(** In a sorted list, fewer than [i + 1] elements are below the element at
    index [i], and more than [i] are at most that element. *)
Lemma sorted_count_below (s : list Q) (i : nat) :
  StronglySorted Qle s -> (i < List.length s)%nat ->
  (List.length (filter (fun x => JsNumber.Qltb x (nth i s 0%Q)) s) <= i)%nat.
Proof.
  intro Hs. revert i. induction Hs as [|a t Hs IH Hall]; intros i Hi; simpl in *; [lia|].
  destruct i as [|j].
  - assert (E : JsNumber.Qltb a a = false) by (apply Qltb_ge, Qle_refl).
    rewrite E.
    assert (Hnone : filter (fun x => JsNumber.Qltb x a) t = []).
    { clear -Hall. induction Hall as [|x t Hx _ IH]; simpl; [reflexivity|].
      apply Qltb_ge in Hx. rewrite Hx. exact IH. }
    rewrite Hnone. simpl. lia.
  - specialize (IH j ltac:(lia)).
    destruct (JsNumber.Qltb a (nth j t 0)); simpl; lia.
Qed.

Lemma sorted_count_upto (s : list Q) (i : nat) :
  StronglySorted Qle s -> (i < List.length s)%nat ->
  (i < List.length (filter (fun x => Qle_bool x (nth i s 0%Q)) s))%nat.
Proof.
  intro Hs. revert i. induction Hs as [|a t Hs IH Hall]; intros i Hi; simpl in *; [lia|].
  destruct i as [|j].
  - assert (E : Qle_bool a a = true) by (apply Qle_bool_iff, Qle_refl).
    rewrite E. simpl. lia.
  - specialize (IH j ltac:(lia)).
    assert (E : Qle_bool a (nth j t 0) = true).
    { apply Qle_bool_iff. rewrite Forall_forall in Hall. apply Hall, nth_In. lia. }
    rewrite E. simpl. lia.
Qed.

(** Two sorted arrangements of the same prices agree index by index. *)
Lemma sorted_perm_nth (s1 s2 : list Q) (i : nat) :
  StronglySorted Qle s1 -> StronglySorted Qle s2 -> Permutation s1 s2 ->
  (i < List.length s1)%nat -> nth i s1 0 == nth i s2 0.
Proof.
  intros H1 H2 Hp Hi.
  assert (Hi2 : (i < List.length s2)%nat) by (rewrite <- (Permutation_length Hp); exact Hi).
  assert (Hno : forall t1 t2, StronglySorted Qle t1 -> StronglySorted Qle t2 ->
                  Permutation t1 t2 -> (i < List.length t1)%nat ->
                  (i < List.length t2)%nat -> ~ nth i t1 0 < nth i t2 0).
  { intros t1 t2 S1 S2 P L1 L2 Hlt.
    assert (A := sorted_count_upto t1 i S1 L1).
    assert (B := sorted_count_below t2 i S2 L2).
    rewrite (perm_filter_length _ _ _ P) in A.
    assert (C := filter_length_mono
                   (fun x => Qle_bool x (nth i t1 0))
                   (fun x => JsNumber.Qltb x (nth i t2 0)) t2).
    assert (D : forall x, Qle_bool x (nth i t1 0) = true ->
                          JsNumber.Qltb x (nth i t2 0) = true).
    { intros x Hx. apply Qle_bool_iff in Hx. apply Qltb_lt.
      eapply Qle_lt_trans; eassumption. }
    specialize (C D). lia. }
  apply Qle_antisym; apply Qnot_lt_le.
  - apply (Hno s2 s1); auto using Permutation_sym.
  - apply (Hno s1 s2); auto.
Qed.

Lemma median_ext (l1 l2 : list Q) :
  List.length l1 = List.length l2 ->
  (forall i, (i < List.length l1)%nat -> nth i l1 0 == nth i l2 0) ->
  l1 <> [] -> median l1 == median l2.
Proof.
  intros Hlen Hnth Hne.
  assert (Hpos : (0 < List.length l1)%nat) by (destruct l1; simpl; [congruence | lia]).
  unfold median. rewrite <- Hlen. set (m := List.length l1) in *.
  assert (Hhalf : (m / 2 < m)%nat) by (apply Nat.div_lt; lia).
  destruct (Nat.even m).
  - rewrite (Hnth (m / 2 - 1)%nat) by lia. rewrite (Hnth (m / 2)%nat Hhalf). reflexivity.
  - apply Hnth, Hhalf.
Qed.

(** X5. The market value depends only on the adjusted prices as a multiset:
    two lists of comparables whose adjusted prices are permutations of each
    other, in particular the same comparables in another order, have the
    same market value. *)
Theorem marketValue_order_independent (cs1 cs2 : list Comparable) :
  Permutation (map adjustedPrice cs1) (map adjustedPrice cs2) ->
  optQeq (calculateMarketValue cs1) (calculateMarketValue cs2).
Proof.
  intro Hp.
  assert (Hlen : List.length cs1 = List.length cs2).
  { apply Permutation_length in Hp. rewrite !length_map in Hp. exact Hp. }
  destruct cs1 as [|c1 cs1].
  - destruct cs2; [simpl; reflexivity | discriminate].
  - assert (N1 : c1 :: cs1 <> []) by discriminate.
    assert (N2 : cs2 <> []) by (destruct cs2; [discriminate | congruence]).
    destruct (calculateMarketValue_nonempty _ N1) as (_ & L1 & P1 & M1).
    destruct (calculateMarketValue_nonempty _ N2) as (_ & L2 & P2 & M2).
    rewrite <- Hlen in L2, P2, M2.
    set (n := List.length (c1 :: cs1)) in *.
    set (p1 := sort (map adjustedPrice (c1 :: cs1))) in *.
    set (p2 := sort (map adjustedPrice cs2)) in *.
    set (t1 := slice p1 _ _) in *. set (t2 := slice p2 _ _) in *.
    assert (T1 : t1 <> []) by (intro E; rewrite E in P1; simpl in P1; lia).
    assert (T2 : t2 <> []) by (intro E; rewrite E in P2; simpl in P2; lia).
    rewrite M1, M2, !medianOfTrimmed_median by assumption. simpl.
    assert (Len1 : List.length p1 = n)
      by (unfold p1; rewrite sort_length, length_map; reflexivity).
    assert (Len2 : List.length p2 = n)
      by (unfold p2; rewrite sort_length, length_map; symmetry; exact Hlen).
    assert (Hk := Nat.Div0.mul_div_le n 5).
    assert (E1 : t1 = firstn (n - n / 5 - n / 5) (skipn (n / 5) p1)).
    { unfold t1. rewrite removeCountOf_div5.
      replace (Z.of_nat n - Z.of_nat (n / 5))%Z with (Z.of_nat (n - n / 5)) by lia.
      apply slice_in_range. lia. }
    assert (E2 : t2 = firstn (n - n / 5 - n / 5) (skipn (n / 5) p2)).
    { unfold t2. rewrite removeCountOf_div5.
      replace (Z.of_nat n - Z.of_nat (n / 5))%Z with (Z.of_nat (n - n / 5)) by lia.
      apply slice_in_range. lia. }
    apply median_ext; [lia | | exact T1].
    intros i Hi. rewrite L1 in Hi.
    rewrite E1, E2, !nth_firstn.
    destruct (Nat.ltb_spec i (n - n / 5 - n / 5)); [|lia].
    rewrite !nth_skipn.
    apply sorted_perm_nth; try apply sort_sorted; [|lia].
    unfold p1, p2.
    eapply perm_trans; [apply sort_perm|].
    eapply perm_trans; [exact Hp|]. apply Permutation_sym, sort_perm.
Qed.

Lemma marketValue_order_independent_witness :
  optQeq (calculateMarketValue [Scenario.saleOfMarch; Scenario2.saleOfApril])
         (calculateMarketValue [Scenario2.saleOfApril; Scenario.saleOfMarch]).
Proof.
  apply (marketValue_order_independent
           [Scenario.saleOfMarch; Scenario2.saleOfApril]
           [Scenario2.saleOfApril; Scenario.saleOfMarch]).
  apply perm_swap.
Defined.

End AggregatorMore.

(** ** Filtering *)

Module FilterMore.
Import JsNumber JsDate ComparableService Spec Notions CalendarFacts.
Local Open Scope Q_scope.

Lemma ratio_check_zero_divisor (a b lo hi : Q) :
  b == 0 -> 0 <= lo ->
  ltb (div a b) (Fin lo) || gtb (div a b) (Fin hi) = false -> a == 0.
Proof.
  intros Hb Hlo. unfold div.
  apply Qeq_bool_iff in Hb. rewrite Hb.
  destruct (Qeq_bool a 0) eqn:Ea; [intros _; apply Qeq_bool_iff, Ea|].
  destruct (Qltb 0 a); simpl; discriminate.
Qed.

(** X6. Degenerate subjects.  When the subject's living area is 0, only
    candidates whose living area is 0 as well can pass the filter (their
    ratio is NaN, which fails neither comparison; any other area gives an
    infinite ratio); likewise for the lot size. *)
Theorem filter_zero_subject (now : Z) (subjectProperty : Property)
    (candidates : list Comparable) (c : Comparable) :
  In c (filterComparables now candidates subjectProperty) ->
  (sqft (propertyCharacteristics subjectProperty) == 0 ->
   sqft (characteristics c) == 0) /\
  (lotSize (propertyCharacteristics subjectProperty) == 0 ->
   lotSize (characteristics c) == 0).
Proof.
  unfold filterComparables. rewrite filter_In. intros [_ Hk].
  unfold keepComparable in Hk.
  destruct (ltb (div (sqft (characteristics c)) _) (Fin 0.8) || _) eqn:E1;
    [discriminate|].
  destruct (Qltb 1 (Qabs (bedrooms _ - _))); [discriminate|].
  destruct (Qltb 1 (Qabs (bathrooms _ - _))); [discriminate|].
  destruct (ltb (div (lotSize (characteristics c)) _) (Fin 0.75) || _) eqn:E2;
    [discriminate|].
  split; intro Hz.
  - apply (ratio_check_zero_divisor _ _ 0.8 1.2 Hz); [lra | exact E1].
  - apply (ratio_check_zero_divisor _ _ 0.75 1.25 Hz); [lra | exact E2].
Qed.

Lemma filter_zero_subject_witness :
  In Scenario2.saleNoArea
     (filterComparables Scenario.firstOfAugust [Scenario2.saleNoArea]
        Scenario2.subjectNoArea) /\
  sqft (characteristics Scenario2.saleNoArea) == 0.
Proof.
  assert (H : In Scenario2.saleNoArea
                (filterComparables Scenario.firstOfAugust [Scenario2.saleNoArea]
                   Scenario2.subjectNoArea)) by (vm_compute; left; reflexivity).
  split; [exact H|].
  apply (proj1 (filter_zero_subject Scenario.firstOfAugust Scenario2.subjectNoArea
                  [Scenario2.saleNoArea] Scenario2.saleNoArea H)).
  reflexivity.
Defined.

(** X7. A later cut-off date keeps fewer comparables: whatever survives the
    filter under the later cut-off also survives it under the earlier one,
    for the same subject and candidates. *)
Theorem filter_antitone_in_cutoff (now1 now2 : Z) (subjectProperty : Property)
    (candidates : list Comparable) :
  (sixMonthsAgo now1 <= sixMonthsAgo now2)%Z ->
  incl (filterComparables now2 candidates subjectProperty)
       (filterComparables now1 candidates subjectProperty).
Proof.
  intros Hle c. unfold filterComparables. rewrite !filter_In.
  intros [Hin Hk]. split; [exact Hin|].
  unfold keepComparable in *.
  destruct (ltb (div (sqft (characteristics c)) _) (Fin 0.8) || _); [discriminate|].
  destruct (Qltb 1 (Qabs (bedrooms _ - _))); [discriminate|].
  destruct (Qltb 1 (Qabs (bathrooms _ - _))); [discriminate|].
  destruct (ltb (div (lotSize (characteristics c)) _) (Fin 0.75) || _); [discriminate|].
  destruct (Qltb 1.0 (distanceMiles c)); [discriminate|].
  destruct (Z.ltb_spec (saleDate c) (sixMonthsAgo now2)); [discriminate|].
  destruct (Z.ltb_spec (saleDate c) (sixMonthsAgo now1)); [lia | reflexivity].
Qed.

Lemma filter_antitone_in_cutoff_witness :
  incl (filterComparables Scenario.firstOfOctober
          [Scenario.saleOfMarch; Scenario2.saleOfApril] Scenario.subjectA)
       (filterComparables Scenario.firstOfAugust
          [Scenario.saleOfMarch; Scenario2.saleOfApril] Scenario.subjectA).
Proof.
  apply (filter_antitone_in_cutoff Scenario.firstOfAugust Scenario.firstOfOctober).
  vm_compute. discriminate.
Defined.

End FilterMore.

(** ** The cut-off date *)

Module CalendarMore.
Import JsDate ComparableService Spec CalendarFacts.
Local Open Scope Z_scope.

Lemma august_cycle :
  allFrom 0 400 (fun y =>
    civil_eqb (civil_from_days (days_from_civil y 8 1 + 31 - 1)) (y, 8, 31)) = true.
Proof. vm_cast_no_check (eq_refl true). Qed.

Lemma civil_august_31 (y : Z) :
  civil_from_days (days_from_civil y 8 1 + 31 - 1) = (y, 8, 31).
Proof.
  assert (Hy : (y = y mod 400 + 400 * (y / 400)))
    by (pose proof (Z.div_mod y 400); lia).
  rewrite Hy at 1. rewrite days_from_civil_era.
  replace (days_from_civil (y mod 400) 8 1 + 146097 * (y / 400) + 31 - 1)
    with (days_from_civil (y mod 400) 8 1 + 31 - 1 + 146097 * (y / 400)) by ring.
  rewrite civil_from_days_era.
  pose proof (Z.mod_pos_bound y 400 ltac:(lia)) as Hb.
  pose proof (allFrom_spec _ _ _ august_cycle (y mod 400) ltac:(lia)) as H1.
  apply civil_eqb_eq in H1. rewrite H1. f_equal. f_equal. lia.
Qed.

Lemma days_february (y : Z) :
  (28 <= days_from_civil y 3 1 - days_from_civil y 2 1 <= 29).
Proof.
  unfold days_from_civil. cbv zeta.
  change (3 <=? 2) with false. change (2 <=? 2) with true.
  change (2 <? 3) with true. change (2 <? 2) with false. cbv iota.
  change ((153 * (3 - 3) + 2) / 5) with 0.
  change ((153 * (2 + 9) + 2) / 5) with 337.
  Z.to_euclidean_division_equations. lia.
Qed.

Lemma days_august (y : Z) :
  (days_from_civil y 9 1 = days_from_civil y 8 1 + 31).
Proof.
  unfold days_from_civil. cbv zeta.
  change (9 <=? 2) with false. change (8 <=? 2) with false.
  change (2 <? 9) with true. change (2 <? 8) with true. cbv iota.
  change ((153 * (9 - 3) + 2) / 5) with 184.
  change ((153 * (8 - 3) + 2) / 5) with 153.
  lia.
Qed.

(** X8. The cut-off date is not monotone in the clock.  In every year, at
    every time of day, the cut-off computed on 31 August (31 February
    overflowing to 2 or 3 March) is one or two days later than the cut-off
    computed on the following day, 1 September (1 March). *)
Theorem cutoff_steps_back_after_august_31 (y t : Z) :
  (0 <= t < msPerDay) ->
  (instant y 8 31 t < instant y 9 1 t) /\
  (sixMonthsAgo (instant y 9 1 t) = instant y 3 1 t) /\
  (msPerDay <= sixMonthsAgo (instant y 8 31 t) - sixMonthsAgo (instant y 9 1 t)
            <= 2 * msPerDay).
Proof.
  intro Ht.
  assert (Hsep : sixMonthsAgo (instant y 9 1 t) = instant y 3 1 t).
  { rewrite sixMonthsAgo_calendar by (try exact Ht; lia). reflexivity. }
  assert (Haug : sixMonthsAgo (instant y 8 31 t) =
                 MakeDate (days_from_civil y 2 1 + 31 - 1) t).
  { assert (Hciv : civil_from_days (Day (instant y 8 31 t)) = (y, 8, 31)).
    { unfold instant. rewrite Day_MakeDate by exact Ht. unfold MakeDay.
      change ((8 - 1) / 12) with 0. change ((8 - 1) mod 12 + 1) with 8.
      rewrite Z.add_0_r. apply civil_august_31. }
    unfold sixMonthsAgo, setMonth, getMonth, YearFromTime, MonthFromTime, DateFromTime.
    rewrite Hciv. simpl fst. simpl snd.
    unfold instant at 1. rewrite TimeWithinDay_MakeDate by exact Ht.
    unfold MakeDay.
    change ((8 - 1 - 6) / 12) with 0. change ((8 - 1 - 6) mod 12 + 1) with 2.
    rewrite Z.add_0_r. reflexivity. }
  rewrite Hsep, Haug.
  assert (Hi : forall m d, (0 <= m - 1 < 12) ->
             instant y m d t = MakeDate (days_from_civil y m 1 + d - 1) t).
  { intros m d Hm. unfold instant, MakeDay.
    rewrite Z.div_small, Z.mod_small by lia.
    rewrite Z.add_0_r. replace (m - 1 + 1) with m by ring. reflexivity. }
  rewrite !Hi by lia. unfold MakeDate.
  pose proof (days_february y). pose proof (days_august y).
  unfold msPerDay in *. split; [lia|]. split; [reflexivity|]. lia.
Qed.

Lemma cutoff_steps_back_witness :
  sixMonthsAgo (instant 2024 9 1 0) = instant 2024 3 1 0.
Proof.
  apply (proj1 (proj2 (cutoff_steps_back_after_august_31 2024 0
                         ltac:(unfold msPerDay; lia)))).
Defined.

End CalendarMore.

(** ** Analysis *)

Module AnalysisMore.
Import JsNumber ComparableService AnalysisService AnalysisServiceById Notions.

Lemma percentage_times_assessed (a f : Q) :
  0 < a ->
  percentageDifferenceOf a (differenceOf a f) * a == (a - f) * 100.
Proof.
  intro Ha. unfold percentageDifferenceOf, differenceOf.
  assert (E : Qltb 0 a = true) by (apply Qltb_lt, Ha). rewrite E.
  field. intro Hz. rewrite Hz in Ha. apply (Qlt_irrefl _ Ha).
Qed.

(** The percentage has the sign of the amount by which the assessed value
    exceeds the final value. *)
Lemma percentage_sign (a f : Q) :
  0 < a ->
  (0 < percentageDifferenceOf a (differenceOf a f) <-> f < a) /\
  (percentageDifferenceOf a (differenceOf a f) < 0 <-> a < f).
Proof.
  intro Ha. pose proof (percentage_times_assessed a f Ha) as Hp.
  set (p := percentageDifferenceOf a (differenceOf a f)) in *.
  repeat split; intro H; nra.
Qed.

Lemma percentage_without_assessed (a f : Q) :
  a <= 0 -> percentageDifferenceOf a (differenceOf a f) = 0.
Proof.
  intro Ha. unfold percentageDifferenceOf.
  assert (E : Qltb 0 a = false) by (apply Qltb_ge, Ha).
  rewrite E. reflexivity.
Qed.

(** A verdict other than fair needs a positive assessed value and a
    percentage beyond 5 on its side. *)
Lemma verdict_needs_values (a f : Q) :
  let v := verdictOf (percentageDifferenceOf a (differenceOf a f)) in
  (v = over_assessed -> 0 < a /\ f < a) /\
  (v = under_assessed -> 0 < a /\ a < f).
Proof.
  intro v. unfold v.
  destruct (Qlt_le_dec 0 a) as [Ha|Ha].
  - destruct (percentage_sign a f Ha) as [Hpos Hneg].
    set (p := percentageDifferenceOf a (differenceOf a f)) in *.
    destruct (AnalysisFacts.verdictOf_cases p) as [[E H] | [[E H] | [E H]]];
      rewrite E; split; intro Hv; try discriminate; split; try exact Ha.
    + apply Hpos. lra.
    + apply Hneg. lra.
  - rewrite (percentage_without_assessed a f Ha).
    split; intro Hv; discriminate Hv.
Qed.

(** X9. The verdict never contradicts the two values: the analysis calls a
    property over-assessed only when its assessed value is positive and
    above the final market value, under-assessed only when its assessed
    value is positive and below the final market value, and fair whenever
    the two values are equal or the assessed value is not positive. *)
Theorem verdict_follows_values (assessedValue finalValue : Q) :
  let v := verdictOf (percentageDifferenceOf assessedValue
                        (differenceOf assessedValue finalValue)) in
  (v = over_assessed -> 0 < assessedValue /\ finalValue < assessedValue) /\
  (v = under_assessed -> 0 < assessedValue /\ assessedValue < finalValue) /\
  (assessedValue <= 0 \/ finalValue == assessedValue -> v = fair).
Proof.
  intro v.
  destruct (verdict_needs_values assessedValue finalValue) as [Hover Hunder].
  split; [exact Hover|]. split; [exact Hunder|].
  intros [Ha | He]; fold v in Hover, Hunder.
  - destruct v; [|reflexivity|].
    + destruct (Hover eq_refl). lra.
    + destruct (Hunder eq_refl). lra.
  - destruct v; [|reflexivity|].
    + destruct (Hover eq_refl). lra.
    + destruct (Hunder eq_refl). lra.
Qed.

Lemma verdict_follows_values_witness :
  0 < 500000 /\ 440000 < 500000.
Proof.
  apply (proj1 (verdict_follows_values 500000 440000)). reflexivity.
Defined.

(** X10. Savings and verdict go together: the annual savings are positive
    exactly when the verdict is over-assessed, and then they are 5.5% of the
    amount by which the assessed value exceeds the market value (the
    absolute value never changes a sign); with any other verdict both the
    annual and the monthly savings are zero. *)
Theorem savings_positive_iff_over_assessed (prop : Property)
    (cs : list Comparable) (mv : Q) (conf : ConfidenceLevel)
    (avm : option Q) (later : Z) :
  let r := assess prop cs mv conf avm later in
  (0 < annualSavings r <-> verdict r = over_assessed) /\
  (verdict r = over_assessed ->
   annualSavings r == (assessedValue r - marketValue r) * 0.055) /\
  (verdict r <> over_assessed ->
   annualSavings r = 0 /\ monthlySavings r == 0).
Proof.
  intro r. unfold r, assess. simpl.
  set (a := assessedValueOf prop).
  set (f := finalMarketValueOf mv avm (List.length cs)).
  assert (Hover : verdictOf (percentageDifferenceOf a (differenceOf a f)) = over_assessed ->
                  0 < differenceOf a f).
  { intro E. apply (proj1 (verdict_needs_values a f)) in E. unfold differenceOf. lra. }
  split; [split|split].
  - intro Hpos.
    destruct (verdictOf (percentageDifferenceOf a (differenceOf a f)));
      [reflexivity | unfold annualSavingsOf in Hpos; lra
       | unfold annualSavingsOf in Hpos; lra].
  - intro E. rewrite E. unfold annualSavingsOf. specialize (Hover E).
    rewrite Qabs_pos by lra. unfold taxRate. nra.
  - intro E. rewrite E. unfold annualSavingsOf. specialize (Hover E).
    rewrite Qabs_pos by lra. unfold differenceOf, taxRate. ring.
  - intro Hne. unfold monthlySavingsOf.
    destruct (verdictOf (percentageDifferenceOf a (differenceOf a f)));
      [contradiction | |]; unfold annualSavingsOf; split; reflexivity.
Qed.

(** X11. The final value never moves against the estimates: with the same
    number of surviving comparables and an AVM value available in both
    cases, a comparable-based market value and an AVM value that are both
    at least as high give a final value at least as high. *)
Theorem finalMarketValue_monotone (marketValue marketValue' : Q)
    (avmResult avmResult' : option Valuation) (sampleSize : nat) (avm avm' : Q) :
  avmValueOf avmResult = Some avm ->
  avmValueOf avmResult' = Some avm' ->
  marketValue <= marketValue' ->
  avm <= avm' ->
  finalMarketValueOf marketValue (avmValueOf avmResult) sampleSize <=
  finalMarketValueOf marketValue' (avmValueOf avmResult') sampleSize.
Proof.
  intros E E' Hm Ha.
  pose proof (AnalysisFacts.avmValueOf_nonzero _ _ E) as Hz.
  pose proof (AnalysisFacts.avmValueOf_nonzero _ _ E') as Hz'.
  rewrite E, E'. unfold finalMarketValueOf. rewrite Hz, Hz'. simpl andb.
  destruct (sampleSize <? 3)%nat; lra.
Qed.

Lemma finalMarketValue_monotone_witness :
  finalMarketValueOf 400000 (avmValueOf (Some (mkValuation 410000 medium))) 2 <=
  finalMarketValueOf 420000 (avmValueOf (Some (mkValuation 415000 medium))) 2.
Proof.
  apply (finalMarketValue_monotone 400000 420000
           (Some (mkValuation 410000 medium)) (Some (mkValuation 415000 medium))
           2%nat 410000 415000);
    vm_compute; try reflexivity; discriminate.
Defined.

(** X12. No surviving comparable but an AVM value: the analysis blends the
    market value 0 of the empty sample with the AVM value and reports 30% of
    the AVM value as market value, with confidence low and sample size 0. *)
Theorem no_comparables_with_avm (now later : Z) (prop : Property)
    (rawComparables : list Comparable) (avmResult : option Valuation) (avm : Q) :
  filterComparables now rawComparables prop = [] ->
  avmValueOf avmResult = Some avm ->
  exists r : PropertyAnalysis,
    analyzeProperty now prop rawComparables avmResult later = Some r /\
    marketValue r == 0.3 * avm /\
    sampleSize (confidence r) = 0%nat /\
    level (confidence r) = low.
Proof.
  intros Hf Havm.
  unfold analyzeProperty, processComparables. rewrite Hf, Havm. simpl.
  eexists. split; [reflexivity|]. simpl.
  apply AnalysisFacts.avmValueOf_nonzero in Havm. rewrite Havm. simpl.
  repeat split; try reflexivity. ring.
Qed.

Lemma no_comparables_with_avm_witness :
  exists r : PropertyAnalysis,
    analyzeProperty Scenario.firstOfOctober Scenario.subjectA
      [Scenario.saleOfMarch] (Some (mkValuation 410000 medium)) 0 = Some r /\
    marketValue r == 0.3 * 410000.
Proof.
  destruct (no_comparables_with_avm Scenario.firstOfOctober 0 Scenario.subjectA
              [Scenario.saleOfMarch] (Some (mkValuation 410000 medium)) 410000
              ltac:(reflexivity) ltac:(reflexivity))
    as (r & Hr & Hv & _).
  exists r. split; assumption.
Defined.

(** X13. Without a positive assessed value (none recorded, 0, or negative)
    the analysis reports verdict fair, percentage difference 0 and no
    savings, whatever the comparables and the AVM say. *)
Theorem no_assessed_value_is_fair (now later : Z) (prop : Property)
    (rawComparables : list Comparable) (avmResult : option Valuation)
    (r : PropertyAnalysis) :
  assessedValueOf prop <= 0 ->
  analyzeProperty now prop rawComparables avmResult later = Some r ->
  verdict r = fair /\ percentageDifference r = 0 /\
  annualSavings r = 0 /\ monthlySavings r == 0 /\
  difference r == - marketValue r + assessedValueOf prop.
Proof.
  intros Ha Hr. unfold analyzeProperty in Hr.
  destruct (ComparableService.marketValue _) as [mv|]; [|discriminate].
  injection Hr as <-. unfold assess. simpl.
  assert (E : Qltb 0 (assessedValueOf prop) = false) by (apply Qltb_ge, Ha).
  unfold percentageDifferenceOf. rewrite E. simpl.
  repeat split; try reflexivity. unfold differenceOf. ring.
Qed.

Lemma no_assessed_value_is_fair_witness :
  exists r : PropertyAnalysis,
    analyzeProperty Scenario.firstOfAugust Scenario2.subjectNoArea
      [Scenario2.saleNoArea] None 0 = Some r /\
    verdict r = fair.
Proof.
  destruct (PipelineFacts.analyzeProperty_total Scenario.firstOfAugust
              Scenario2.subjectNoArea [Scenario2.saleNoArea] None 0) as [r Hr].
  exists r. split; [exact Hr|].
  apply (no_assessed_value_is_fair Scenario.firstOfAugust 0 Scenario2.subjectNoArea
           [Scenario2.saleNoArea] None r ltac:(apply Qle_refl) Hr).
Defined.

(** X14. The analysis for returning users ([getAnalysisByPropertyId]) and
    the full analysis ([analyzeProperty]) return the same record whenever
    the full analysis does not blend: when no AVM value is available or at
    least three comparables survive the filter. *)
Theorem analyses_agree_without_blend (now later : Z) (prop : Property)
    (rawComparables : list Comparable) (avmResult : option Valuation) :
  avmValueOf avmResult = None \/
  (3 <= List.length (filterComparables now rawComparables prop))%nat ->
  analyzeProperty now prop rawComparables avmResult later =
  getAnalysisByPropertyId now prop rawComparables later.
Proof.
  intro H. unfold analyzeProperty, getAnalysisByPropertyId.
  destruct (ComparableService.marketValue _) as [mv|] eqn:Emv; [|reflexivity].
  unfold assess.
  assert (E : finalMarketValueOf mv (avmValueOf avmResult)
                (List.length (ComparableService.comparables
                   (processComparables now rawComparables prop))) = mv).
  { destruct H as [H | H].
    - rewrite H. reflexivity.
    - unfold finalMarketValueOf. destruct (avmValueOf avmResult); [|reflexivity].
      unfold processComparables. simpl. rewrite length_map.
      apply Nat.ltb_ge in H. rewrite H, andb_false_r. reflexivity. }
  rewrite E. reflexivity.
Qed.

Lemma analyses_agree_without_blend_witness :
  analyzeProperty Scenario.firstOfAugust Scenario.subjectA
    [Scenario.saleOfMarch] None 0 =
  getAnalysisByPropertyId Scenario.firstOfAugust Scenario.subjectA
    [Scenario.saleOfMarch] 0.
Proof.
  apply (analyses_agree_without_blend Scenario.firstOfAugust 0 Scenario.subjectA
           [Scenario.saleOfMarch] None).
  left. reflexivity.
Defined.

End AnalysisMore.

(** ** Pipeline *)

Module PipelineMore.
Import JsNumber ComparableService AnalysisService Notions Spec.

Lemma sameListing_keep (now : Z) (subjectProperty : Property) (a b : Comparable) :
  sameListing a b ->
  keepComparable now subjectProperty a = keepComparable now subjectProperty b.
Proof.
  intros (_ & _ & _ & Hd & Hm & Hc & _ & _).
  unfold keepComparable. rewrite Hd, Hm, Hc. reflexivity.
Qed.

Lemma sameListing_adjust (subjectProperty : Property) (a b : Comparable) :
  sameListing a b ->
  adjustComparable subjectProperty a = adjustComparable subjectProperty b.
Proof.
  intros (Hi & Ha & Hp & Hd & Hm & Hc & Hs & Hsi).
  destruct a, b. simpl in *. subst.
  reflexivity.
Qed.

(** X15. [processComparables] never reads the [adjustments] and
    [adjustedPrice] that the comparables arrive with: two raw lists that
    describe the same listings in the same order give the same result,
    whatever those two fields held. *)
Theorem process_ignores_stale_adjustments (now : Z) (subjectProperty : Property)
    (raw1 raw2 : list Comparable) :
  Forall2 sameListing raw1 raw2 ->
  processComparables now raw1 subjectProperty =
  processComparables now raw2 subjectProperty.
Proof.
  intro H. unfold processComparables.
  assert (E : map (adjustComparable subjectProperty)
                  (filterComparables now raw1 subjectProperty) =
              map (adjustComparable subjectProperty)
                  (filterComparables now raw2 subjectProperty)).
  { unfold filterComparables.
    induction H as [|a b l1 l2 Hab _ IH]; simpl; [reflexivity|].
    rewrite (sameListing_keep now subjectProperty a b Hab).
    destruct (keepComparable now subjectProperty b); [|exact IH].
    simpl. rewrite (sameListing_adjust subjectProperty a b Hab), IH. reflexivity. }
  rewrite E. reflexivity.
Qed.

Lemma process_ignores_stale_adjustments_witness :
  processComparables Scenario.firstOfAugust [Scenario.saleOfMarch] Scenario.subjectA =
  processComparables Scenario.firstOfAugust [Scenario2.saleOfMarchStale] Scenario.subjectA.
Proof.
  apply (process_ignores_stale_adjustments Scenario.firstOfAugust Scenario.subjectA
           [Scenario.saleOfMarch] [Scenario2.saleOfMarchStale]).
  constructor; [|constructor].
  repeat split.
Defined.

(** X16. Filtering can only lower the confidence: the sample size is at most
    the number of raw comparables, and the confidence reported is at most
    the one that the raw count alone would give. *)
Theorem confidence_bounded_by_raw_count (now : Z) (subjectProperty : Property)
    (rawComparables : list Comparable) :
  let r := processComparables now rawComparables subjectProperty in
  (List.length (ComparableService.comparables r) <= List.length rawComparables)%nat /\
  (rank (ComparableService.confidence r) <=
   rank (confidenceOfCount (List.length rawComparables)))%nat.
Proof.
  intro r. unfold r, processComparables. simpl.
  assert (Hlen : (List.length (map (adjustComparable subjectProperty)
                    (filterComparables now rawComparables subjectProperty)) <=
                  List.length rawComparables)%nat).
  { rewrite length_map. unfold filterComparables. apply filter_length_le. }
  split; [exact Hlen|].
  unfold calculateConfidence.
  set (n := List.length (map _ _)) in *. set (m := List.length rawComparables) in *.
  destruct (ConfidenceFacts.confidenceOfCount_cases n) as [[En Hn] | [[En Hn] | [En Hn]]];
    destruct (ConfidenceFacts.confidenceOfCount_cases m) as [[Em Hm] | [[Em Hm] | [Em Hm]]];
    rewrite En, Em; simpl; lia.
Qed.

End PipelineMore.

(** ** Denver property ids and schedule numbers *)

Module DenverFacts.
Import DenverAssessorService.
Local Open Scope N_scope.

Lemma digit_is_kept (c : N) :
  isDigit c = true -> negb ((c =? dash) || isWhiteSpace c) = true.
Proof.
  unfold isDigit, isWhiteSpace, dash. intro H.
  apply andb_true_iff in H. destruct H as [H1 H2].
  apply N.leb_le in H1. apply N.leb_le in H2.
  apply negb_true_iff.
  repeat match goal with
         | |- context [(?a =? ?b)] =>
             destruct (N.eqb_spec a b); [lia|]
         | |- context [(?a <=? ?b)] =>
             destruct (N.leb_spec a b); try lia
         end; reflexivity.
Qed.

Lemma digits_are_kept (s : jsString) :
  forallb isDigit s = true -> removeDashesAndSpaces s = s.
Proof.
  unfold removeDashesAndSpaces.
  induction s as [|c s IH]; simpl; [reflexivity|].
  intro H. apply andb_true_iff in H. destruct H as [Hc Hs].
  rewrite (digit_is_kept c Hc), (IH Hs). reflexivity.
Qed.

Lemma removeDashesAndSpaces_app (s t : jsString) :
  removeDashesAndSpaces (s ++ t) = removeDashesAndSpaces s ++ removeDashesAndSpaces t.
Proof. apply filter_app. Qed.

Lemma thirteen_split (p : jsString) :
  List.length p = 13%nat ->
  substring p 0 5 ++ substring p 5 7 ++ substring p 7 10 ++ substring p 10 13 = p.
Proof.
  intro H.
  do 13 (destruct p as [|? p]; [discriminate H|]).
  destruct p; [reflexivity | discriminate H].
Qed.

Lemma isThirteenDigits_spec (s : jsString) :
  isThirteenDigits s = true <->
  List.length s = 13%nat /\ Forall (fun c => 48 <= c <= 57) s.
Proof.
  unfold isThirteenDigits. rewrite andb_true_iff, Nat.eqb_eq, forallb_forall, Forall_forall.
  split; intros [Hl Hd]; (split; [exact Hl|]); intros c Hc; specialize (Hd c Hc).
  - unfold isDigit in Hd. apply andb_true_iff in Hd.
    rewrite !N.leb_le in Hd. exact Hd.
  - unfold isDigit. apply andb_true_iff. rewrite !N.leb_le. exact Hd.
Qed.

(** What [propertyIdToScheduleNumber] produces is read back by
    [scheduleNumberToPropertyId]. *)
Lemma schedule_number_read_back (propertyId scheduleNumber : jsString) :
  propertyIdToScheduleNumber propertyId = Some scheduleNumber ->
  scheduleNumberToPropertyId scheduleNumber = Some propertyId.
Proof.
  unfold propertyIdToScheduleNumber.
  destruct (isThirteenDigits propertyId) eqn:E; [|discriminate].
  cbn [negb]. intro H. injection H as <-.
  assert (E' := E). unfold isThirteenDigits in E'.
  apply andb_true_iff in E'. destruct E' as [Hlen Hdig]. apply Nat.eqb_eq in Hlen.
  assert (Hclean : removeDashesAndSpaces
                     (substring propertyId 0 5 ++ [dash] ++
                      substring propertyId 5 7 ++ [dash] ++
                      substring propertyId 7 10 ++ [dash] ++
                      substring propertyId 10 13) = propertyId).
  { rewrite <- (thirteen_split propertyId Hlen) in Hdig.
    rewrite !forallb_app in Hdig.
    apply andb_true_iff in Hdig. destruct Hdig as [D1 Hdig].
    apply andb_true_iff in Hdig. destruct Hdig as [D2 Hdig].
    apply andb_true_iff in Hdig. destruct Hdig as [D3 D4].
    rewrite !removeDashesAndSpaces_app.
    rewrite (digits_are_kept _ D1), (digits_are_kept _ D2),
      (digits_are_kept _ D3), (digits_are_kept _ D4).
    change (removeDashesAndSpaces [dash]) with (@nil N). simpl.
    apply (thirteen_split propertyId Hlen). }
  unfold scheduleNumberToPropertyId. cbn [app] in Hclean. rewrite Hclean, E. reflexivity.
Qed.

(** X17. Round trip: whenever [propertyIdToScheduleNumber] accepts a
    property id, [scheduleNumberToPropertyId] accepts the schedule number it
    produced and gives the property id back. *)
Theorem schedule_number_round_trip (propertyId scheduleNumber : jsString) :
  propertyIdToScheduleNumber propertyId = Some scheduleNumber ->
  scheduleNumberToPropertyId scheduleNumber = Some propertyId.
Proof. exact (schedule_number_read_back propertyId scheduleNumber). Qed.


Lemma schedule_number_round_trip_witness :
  propertyIdToScheduleNumber DenverExample.propertyId =
    Some DenverExample.scheduleNumber /\
  scheduleNumberToPropertyId DenverExample.scheduleNumber =
    Some DenverExample.propertyId.
Proof.
  assert (H : propertyIdToScheduleNumber DenverExample.propertyId =
              Some DenverExample.scheduleNumber) by reflexivity.
  split; [exact H|].
  apply (schedule_number_round_trip DenverExample.propertyId
           DenverExample.scheduleNumber H).
Defined.

(** X18. Whatever [scheduleNumberToPropertyId] returns is a property id of
    thirteen digits; it is returned unchanged when given as input, and its
    schedule number converts back to it. *)
Theorem schedule_number_normalises (scheduleNumber propertyId : jsString) :
  scheduleNumberToPropertyId scheduleNumber = Some propertyId ->
  isThirteenDigits propertyId = true /\
  scheduleNumberToPropertyId propertyId = Some propertyId /\
  exists canonical : jsString,
    propertyIdToScheduleNumber propertyId = Some canonical /\
    scheduleNumberToPropertyId canonical = Some propertyId.
Proof.
  unfold scheduleNumberToPropertyId at 1.
  destruct (isThirteenDigits (removeDashesAndSpaces scheduleNumber)) eqn:E;
    [|discriminate].
  cbn [negb]. intro H. injection H as <-.
  set (p := removeDashesAndSpaces scheduleNumber) in *.
  assert (Hd : forallb isDigit p = true).
  { unfold isThirteenDigits in E. apply andb_true_iff in E. apply E. }
  split; [exact E|]. split.
  - unfold scheduleNumberToPropertyId. rewrite (digits_are_kept p Hd), E. reflexivity.
  - destruct (propertyIdToScheduleNumber p) as [canonical|] eqn:Ec.
    + exists canonical. split; [reflexivity|].
      apply schedule_number_read_back, Ec.
    + unfold propertyIdToScheduleNumber in Ec. rewrite E in Ec. discriminate.
Qed.

Lemma schedule_number_normalises_witness :
  scheduleNumberToPropertyId DenverExample.propertyId = Some DenverExample.propertyId.
Proof.
  apply (schedule_number_normalises DenverExample.scheduleNumber
           DenverExample.propertyId).
  reflexivity.
Defined.

End DenverFacts.

(** ** The mapped property *)

Module MapperFacts.
Import RentCastService RentCastMapper.

Lemma ascii_compare_lt_trans (x y z : ascii) :
  Ascii.compare x y = Lt -> Ascii.compare y z = Lt -> Ascii.compare x z = Lt.
Proof.
  unfold Ascii.compare. rewrite !N.compare_lt_iff. lia.
Qed.

Lemma ascii_compare_refl (x : ascii) : Ascii.compare x x = Eq.
Proof. unfold Ascii.compare. apply N.compare_refl. Qed.

Lemma leb_trans (a b c : string) :
  String.leb a b = true -> String.leb b c = true -> String.leb a c = true.
Proof.
  unfold String.leb. revert b c.
  induction a as [|x a IH]; intros b c Hab Hbc.
  - destruct c; reflexivity.
  - destruct b as [|y b]; [discriminate Hab|].
    destruct c as [|z c]; [discriminate Hbc|].
    simpl in *.
    destruct (Ascii.compare x y) eqn:Exy; try discriminate Hab;
      destruct (Ascii.compare y z) eqn:Eyz; try discriminate Hbc.
    + apply Ascii.compare_eq_iff in Exy, Eyz. subst.
      rewrite ascii_compare_refl. apply (IH b c Hab Hbc).
    + apply Ascii.compare_eq_iff in Exy. subst. rewrite Eyz. reflexivity.
    + apply Ascii.compare_eq_iff in Eyz. subst. rewrite Exy. reflexivity.
    + rewrite (ascii_compare_lt_trans x y z Exy Eyz). reflexivity.
Qed.

Lemma leb_refl (a : string) : String.leb a a = true.
Proof. destruct (String.leb_total a a); assumption. Qed.

Lemma insertKey_in (k x : string) (l : list string) :
  In x (insertKey k l) <-> x = k \/ In x l.
Proof.
  induction l as [|h t IH]; simpl.
  - intuition.
  - destruct (String.leb k h); simpl; rewrite ?IH; intuition.
Qed.

Lemma sortKeys_in (x : string) (l : list string) : In x (sortKeys l) <-> In x l.
Proof.
  induction l as [|h t IH]; simpl; [reflexivity|].
  rewrite insertKey_in, IH. intuition.
Qed.

Lemma insertKey_sorted (k : string) (l : list string) :
  StronglySorted (fun a b => String.leb a b = true) l ->
  StronglySorted (fun a b => String.leb a b = true) (insertKey k l).
Proof.
  induction 1 as [|h t Hs IH Hall]; simpl.
  - repeat constructor.
  - destruct (String.leb k h) eqn:E.
    + constructor; [constructor; assumption|].
      constructor; [exact E|].
      eapply Forall_impl; [|exact Hall].
      intros z Hz. apply (leb_trans k h z E Hz).
    + constructor; [exact IH|].
      apply Forall_forall. intros z Hz. apply insertKey_in in Hz.
      destruct Hz as [->|Hz].
      * destruct (String.leb_total k h) as [C|C]; [congruence | exact C].
      * rewrite Forall_forall in Hall. apply Hall, Hz.
Qed.

Lemma sortKeys_sorted (l : list string) :
  StronglySorted (fun a b => String.leb a b = true) (sortKeys l).
Proof.
  induction l as [|h t IH]; simpl; [constructor | apply insertKey_sorted, IH].
Qed.

Lemma sorted_last_is_greatest (l : list string) (m : string) :
  StronglySorted (fun a b => String.leb a b = true) l ->
  hd_error (rev l) = Some m ->
  In m l /\ forall x, In x l -> String.leb x m = true.
Proof.
  intros Hs Hm.
  assert (Hl : exists l', l = l' ++ [m]).
  { destruct (rev l) as [|h r] eqn:E; [discriminate|].
    simpl in Hm. injection Hm as ->.
    exists (rev r). rewrite <- (rev_involutive l), E. reflexivity. }
  destruct Hl as [l' ->]. split; [apply in_or_app; right; left; reflexivity|].
  clear Hm. induction l' as [|h t IH]; simpl in *.
  - intros x [<- | []]. apply leb_refl.
  - inversion Hs as [|? ? Hs' Hall]; subst.
    intros x [<- | Hx].
    + rewrite Forall_forall in Hall. apply Hall, in_or_app. right. left. reflexivity.
    + apply (IH Hs' x Hx).
Qed.

Lemma lookup_in {A : Type} (obj : list (string * A)) (key : string) (v : A) :
  lookup obj key = Some v -> In (key, v) obj.
Proof.
  induction obj as [|[k w] rest IH]; simpl; [discriminate|].
  destruct (String.eqb_spec k key) as [->|_].
  - intro H. injection H as ->. left. reflexivity.
  - intro H. right. apply IH, H.
Qed.

(** X23. The assessed value of a mapped property is the value recorded
    under the greatest year key of [taxAssessments] (greatest in the order
    of the key strings): it is never taken from an earlier year, and it is
    missing when there are no assessments or when that value is 0. *)
Theorem assessed_value_is_latest (record : RentCastPropertyRecord) :
  (forall v : Q,
      currentAssessedValue (mapToProperty record) = Some v ->
      exists taxAssessments year a,
        rcTaxAssessments record = Some taxAssessments /\
        In (year, a) taxAssessments /\ taValue a = v /\ ~ v == 0 /\
        forall y a', In (y, a') taxAssessments -> String.leb y year = true) /\
  (rcTaxAssessments record = None \/ rcTaxAssessments record = Some [] ->
   currentAssessedValue (mapToProperty record) = None).
Proof.
  split.
  - intros v. simpl. unfold latestAssessment.
    destruct (rcTaxAssessments record) as [t|]; [|discriminate].
    destruct (hd_error (rev (sortKeys (keys t)))) as [year|] eqn:Eh; [|discriminate].
    destruct (String.eqb year ""); [discriminate|].
    destruct (lookup t year) as [a|] eqn:El; [|discriminate].
    destruct (Qeq_bool (taValue a) 0) eqn:Ez; [discriminate|].
    intro H. injection H as <-.
    exists t, year, a.
    split; [reflexivity|]. split; [apply lookup_in, El|]. split; [reflexivity|].
    split.
    + intro C. apply Qeq_bool_iff in C. congruence.
    + intros y a' Hin.
      destruct (sorted_last_is_greatest _ _ (sortKeys_sorted (keys t)) Eh) as [_ Hmax].
      apply Hmax, sortKeys_in. unfold keys.
      apply in_map_iff. exists (y, a'). split; [reflexivity | exact Hin].
  - intros [H | H]; simpl; unfold latestAssessment; rewrite H; reflexivity.
Qed.


Lemma assessed_value_is_latest_witness :
  currentAssessedValue (mapToProperty RouteExample.record) = Some 500000 /\
  exists taxAssessments year a,
    rcTaxAssessments RouteExample.record = Some taxAssessments /\
    In (year, a) taxAssessments /\ taValue a = 500000 /\ ~ 500000 == 0 /\
    forall y a', In (y, a') taxAssessments -> String.leb y year = true.
Proof.
  split; [reflexivity|].
  apply (proj1 (assessed_value_is_latest RouteExample.record) 500000).
  reflexivity.
Defined.

End MapperFacts.

(** ** Statuses of the analysis route *)

Module RouteFacts.
Import JsError RentCastService PropertyService PropertyServiceComparables AnalysisRoute.
Local Open Scope string_scope.
Local Open Scope Z_scope.

Lemma includes_here (needle rest : string) : includes (needle ++ rest) needle = true.
Proof.
  assert (H : prefix needle (needle ++ rest) = true).
  { induction needle as [|c n IH]; simpl.
    - destruct rest; reflexivity.
    - destruct (Ascii.ascii_dec c c) as [_|C]; [exact IH | contradiction]. }
  destruct (needle ++ rest); simpl in *; rewrite H; reflexivity.
Qed.

Lemma includes_later (before s needle : string) :
  includes s needle = true -> includes (before ++ s) needle = true.
Proof.
  intro H. induction before as [|c b IH]; simpl; [exact H|].
  rewrite IH. apply orb_true_r.
Qed.

Lemma POST_catch_status (error : thrown) :
  status (POST_catch error) = 404 \/ status (POST_catch error) = 429 \/
  status (POST_catch error) = 500.
Proof.
  unfold POST_catch.
  destruct (instanceofError error && includes (messageOf error) "not found");
    [left; reflexivity|].
  destruct (instanceofError error && includes (messageOf error) "rate limit");
    [right; left; reflexivity | right; right; reflexivity].
Qed.

Section Requests.
Variable trim : string -> string.
Variable properties : string -> Result PropertiesData.
Variable comparableSales : Property -> Result (list Comparable).
Variable valuation : string -> option AnalysisService.Valuation.
Variable now later : Z.

(** X19. The handler answers 400 exactly when the body parsed to a value
    other than [null] whose [address] is missing, not a string, or empty;
    nothing that happens later is ever answered with 400.  A body of [null]
    is not among them: the destructuring throws and the handler answers
    500. *)
Theorem status_400_iff_no_address (json : Result ParsedBody) :
  (status (POST trim json properties comparableSales valuation now later) = 400 <->
   exists body, json = Return (JsonValue body) /\ truthy (bodyAddress body) = false) /\
  (json = Return JsonNull ->
   status (POST trim json properties comparableSales valuation now later) = 500).
Proof.
  unfold POST. split; [split|].
  - destruct json as [[|body]|error].
    + destruct (POST_catch_status (Error destructuringNull)) as [H | [H | H]];
        rewrite H; discriminate.
    + destruct (truthy (bodyAddress body)) eqn:E; [|intros _; exists body; auto].
      simpl negb. cbv iota.
      destruct (match verifiedProperty body with
                | Some property => Return property
                | None => _ end) as [property|error].
      * destruct (comparableSales property) as [raw|error]; simpl; [discriminate|].
        destruct (POST_catch_status error) as [H | [H | H]]; rewrite H; discriminate.
      * destruct (POST_catch_status error) as [H | [H | H]]; rewrite H; discriminate.
    + destruct (POST_catch_status error) as [H | [H | H]]; rewrite H; discriminate.
  - intros (body & -> & E). rewrite E. reflexivity.
  - intros ->. vm_compute. reflexivity.
Qed.

(** X20. A property that the data provider does not know is answered with
    404: when the request of the look-up fails with HTTP status 404, or
    succeeds with an empty array, the handler answers 404, whatever the
    address. *)
Theorem lookup_not_found_is_404 (body : Body) (m : string) :
  truthy (bodyAddress body) = true ->
  verifiedProperty body = None ->
  let address := addressToUse trim (stringOf (bodyAddress body)) (addressData body) in
  properties address = Throw (AxiosError (Some 404) m) \/
  properties address = Return (DataArray []) ->
  status (POST trim (Return (JsonValue body)) properties comparableSales valuation now later) = 404.
Proof.
  intros Ha Hv address Hp. unfold POST. rewrite Ha, Hv. simpl negb. cbv iota.
  fold address.
  assert (Hl : lookupProperty properties address =
               Throw (Error ("Property not found: " ++ address ++
                             ". Please check the address and try again."))).
  { unfold lookupProperty, getPropertyByAddress.
    destruct Hp as [Hp | Hp]; rewrite Hp; reflexivity. }
  rewrite Hl. unfold POST_catch. cbn [instanceofError messageOf andb].
  assert (Hi : includes ("Property not found: " ++ address ++
                         ". Please check the address and try again.") "not found" = true).
  { apply (includes_later "Property " _ "not found").
    apply (includes_here "not found"). }
  rewrite Hi. reflexivity.
Qed.

(** X21. A rate limit hit by the look-up is not answered with 429: when the
    request of the look-up fails with HTTP status 429, [lookupProperty]
    replaces the error by one whose message names neither [rate limit] nor
    [not found], and the handler answers 500. *)
Theorem lookup_rate_limit_is_500 (body : Body) (m : string) :
  truthy (bodyAddress body) = true ->
  verifiedProperty body = None ->
  let address := addressToUse trim (stringOf (bodyAddress body)) (addressData body) in
  properties address = Throw (AxiosError (Some 429) m) ->
  lookupProperty properties address =
    Throw (Error "Service temporarily unavailable. Please try again in a few minutes.") /\
  status (POST trim (Return (JsonValue body)) properties comparableSales valuation now later) = 500.
Proof.
  intros Ha Hv address Hp.
  assert (Hl : lookupProperty properties address =
               Throw (Error "Service temporarily unavailable. Please try again in a few minutes.")).
  { unfold lookupProperty, getPropertyByAddress. rewrite Hp. reflexivity. }
  split; [exact Hl|].
  unfold POST. rewrite Ha, Hv. simpl negb. cbv iota. fold address.
  rewrite Hl. reflexivity.
Qed.

End Requests.

Lemma lookup_not_found_is_404_witness :
  status (POST RouteExample.noTrim (Return (JsonValue RouteExample.body))
            RouteExample.noProperties RouteExample.noComparables
            RouteExample.noValuation 0 0) = 404.
Proof.
  apply (lookup_not_found_is_404 RouteExample.noTrim RouteExample.noProperties
           RouteExample.noComparables RouteExample.noValuation 0 0
           RouteExample.body "").
  - reflexivity.
  - reflexivity.
  - right. reflexivity.
Defined.

Lemma lookup_rate_limit_is_500_witness :
  status (POST RouteExample.noTrim (Return (JsonValue RouteExample.body))
            RouteExample.rateLimited RouteExample.noComparables
            RouteExample.noValuation 0 0) = 500.
Proof.
  apply (proj2 (lookup_rate_limit_is_500 RouteExample.noTrim RouteExample.rateLimited
                  RouteExample.noComparables RouteExample.noValuation 0 0
                  RouteExample.body "Request failed with status code 429"
                  ltac:(reflexivity) ltac:(reflexivity) ltac:(reflexivity))).
Defined.

(** X22. When the request for comparable sales fails, the handler answers
    429 if it failed with HTTP status 429, and otherwise answers 200 with
    the analysis of an empty list of comparables: every other failure of
    that request is turned into an empty list of comparables. *)
Theorem comparables_failure_is_429_or_empty
    (trim : string -> string) (properties : string -> Result PropertiesData)
    (RentCastComparable : Type) (mapped : RentCastComparable -> Comparable)
    (comparableSales : Property -> Result (list Comparable))
    (valuation : string -> option AnalysisService.Valuation) (now later : Z)
    (body : Body) (property : Property) (error : thrown) :
  truthy (bodyAddress body) = true ->
  let address := addressToUse trim (stringOf (bodyAddress body)) (addressData body) in
  verifiedProperty body = Some property \/
  (verifiedProperty body = None /\
   lookupProperty properties address = Return property) ->
  comparableSales property =
    getComparableSales_whenRequestFails RentCastComparable mapped error ->
  let response := POST trim (Return (JsonValue body)) properties comparableSales valuation now later in
  (isAxiosError error && statusIs error 429 = true -> status response = 429) /\
  (isAxiosError error && statusIs error 429 = false ->
   response =
     mkResponse 200
       (Analysis (AnalysisService.analyzeProperty now property []
                    (valuation address) later))).
Proof.
  intros Ha address Hv Hc response. unfold response, POST.
  rewrite Ha. simpl negb. cbv iota. fold address.
  assert (Hf : match verifiedProperty body with
               | Some p => Return p
               | None => lookupProperty properties address
               end = Return property).
  { destruct Hv as [Hv | [Hv Hl]]; rewrite Hv; [reflexivity | exact Hl]. }
  rewrite Hf, Hc.
  unfold getComparableSales_whenRequestFails, getComparableSales_catch.
  destruct error as [msg | [code|] msg |]; simpl; try (split; [discriminate | reflexivity]).
  destruct (Z.eqb_spec code 429) as [->|Hne].
  - simpl. split; [reflexivity | discriminate].
  - simpl. split; [discriminate|]. intros _.
    destruct ((code =? 400) || (code =? 404)); reflexivity.
Qed.


Lemma comparables_failure_witness :
  POST RouteExample.noTrim (Return (JsonValue RouteExample.verifiedBody))
    RouteExample.noProperties RouteExample.failedComparables
    RouteExample.noValuation Scenario.firstOfAugust 0 =
  mkResponse 200
    (Analysis (AnalysisService.analyzeProperty Scenario.firstOfAugust
                 Scenario.subjectA [] None 0)).
Proof.
  apply (proj2 (comparables_failure_is_429_or_empty RouteExample.noTrim
                  RouteExample.noProperties unit (fun _ => Scenario.saleOfMarch)
                  RouteExample.failedComparables RouteExample.noValuation
                  Scenario.firstOfAugust 0 RouteExample.verifiedBody
                  Scenario.subjectA RouteExample.serverError
                  ltac:(reflexivity) ltac:(left; reflexivity) ltac:(reflexivity))).
  reflexivity.
Defined.

End RouteFacts.
